(** * Pioreactor web UI: bus synchronisation and command dispatch

    A shallow embedding of the client-side handlers of the Pioreactor UI
    ([MediaCard.jsx], [ErrorSnackbar.jsx], [DownloadData.jsx] and the
    dosing-automation dialog) together with the properties of the
    synchronisation / dispatch layer that are checked against them.

    Conventions of the embedding:
    - a JavaScript string is the Rocq [string] holding its UTF-8 bytes;
    - a JavaScript number is an IEEE-754 binary64 value, represented by
      [spec_float] with the reference operations of [SpecFloat]
      (precision 53, maximal exponent 1024);
    - a plain JavaScript object is an association list kept in the
      enumeration order of its own properties;
    - React state is a record; a handler is a function from the state
      (and the event) to the next state and the effects it performs. *)

From Stdlib Require Import ZArith NArith List String Ascii Bool Lia.
From Stdlib Require Import DecimalString.
From Stdlib Require Import Floats.SpecFloat.
Import ListNotations.
Local Open Scope string_scope.
Set Warnings "-register-all".

(* ------------------------------------------------------------------ *)
(** ** JavaScript numbers *)

Module JsNumber.

Definition prec : Z := 53.
Definition emax : Z := 1024.

Definition number := spec_float.

Definition NaN : number := S754_nan.
Definition zero : number := S754_zero false.
Definition Infinity (neg : bool) : number := S754_infinity neg.

(** [a + b] on two numbers. *)
Definition add (a b : number) : number := SFadd prec emax a b.

(** The binary64 value nearest to [n / d] (ties to even). *)
Definition of_quotient (neg : bool) (n d : positive) : number :=
  let s := (55 + Zdigits2 (Zpos d))%Z in
  let num := Z.shiftl (Zpos n) s in
  let q := (num / Zpos d)%Z in
  let r := (num mod Zpos d)%Z in
  let loc := if (r =? 0)%Z then loc_Exact
             else loc_Inexact (Z.compare (2 * r) (Zpos d)) in
  binary_round_aux prec emax neg q (- s) loc.

(** The binary64 value nearest to [m * 10 ^ e]. *)
Definition of_decimal (neg : bool) (m : N) (e : Z) : number :=
  match m with
  | N0 => S754_zero neg
  | Npos p =>
      match e with
      | Zneg k => of_quotient neg p (Pos.pow 10 k)
      | Z0 => binary_round prec emax neg p 0
      | Zpos k => binary_round prec emax neg (p * Pos.pow 10 k) 0
      end
  end.

Definition eqb (a b : number) : bool :=
  match a, b with
  | S754_zero s, S754_zero s' => Bool.eqb s s'
  | S754_infinity s, S754_infinity s' => Bool.eqb s s'
  | S754_nan, S754_nan => true
  | S754_finite s m e, S754_finite s' m' e' =>
      Bool.eqb s s' && Pos.eqb m m' && Z.eqb e e'
  | _, _ => false
  end.

(** [a === b] on two numbers: the IEEE comparison, under which [NaN]
    differs from itself and the two zeros are equal. *)
Definition strict_equal (a b : number) : bool := SFeqb a b.

Definition is_finite (x : number) : bool :=
  match x with
  | S754_zero _ | S754_finite _ _ _ => true
  | _ => false
  end.

(** *** Number::toString (radix 10) *)

Definition digits_of_N (n : N) : string :=
  NilZero.string_of_uint (N.to_uint n).

Fixpoint zeros (n : nat) : string :=
  match n with
  | O => EmptyString
  | S k => String "0"%char (zeros k)
  end.

(** A positive finite value [m * 2 ^ e] as a fraction. *)
Definition fraction (m : positive) (e : Z) : Z * Z :=
  match e with
  | Zneg k => (Zpos m, Zpos (Pos.pow 2 k))
  | _ => (Zpos m * 2 ^ e, 1)%Z
  end.

(** [num / den] scaled by [10 ^ p], again as a fraction. *)
Definition scale10 (nd : Z * Z) (p : Z) : Z * Z :=
  let (num, den) := nd in
  match p with
  | Zneg k => (num, den * Zpos (Pos.pow 10 k))%Z
  | _ => (num * 10 ^ p, den)%Z
  end.

(** The least [n], searched upwards from [n0], with
    [num / den < 10 ^ n]. *)
Fixpoint decimal_exponent (fuel : nat) (nd : Z * Z) (n0 : Z) : Z :=
  match fuel with
  | O => n0
  | S f =>
      let (a, b) := scale10 nd (- n0) in
      if (a <? b)%Z then n0 else decimal_exponent f nd (n0 + 1)
  end.

(** The shortest decimal significand: the least [k], then the [s] of
    [k] digits nearest to the value, with [s * 10 ^ (n - k)] reading
    back as [x]; rounding up may carry into the next power of ten,
    which moves [n]. *)
Fixpoint shortest (fuel : nat) (x : number) (nd : Z * Z) (n k : Z)
  : Z * Z * Z :=
  match fuel with
  | O => (0, k, n)%Z
  | S f =>
      let (a, b) := scale10 nd (k - n) in
      let lo := (a / b)%Z in
      let hi := (lo + 1)%Z in
      let ok c := ((10 ^ (k - 1) <=? c) && (c <=? 10 ^ k))%Z
                  && eqb (of_decimal false (Z.to_N c) (n - k)) x in
      let up := if (hi =? 10 ^ k)%Z then (10 ^ (k - 1), k, n + 1)%Z
                else (hi, k, n) in
      let r2 := (2 * (a mod b))%Z in
      match ok lo, ok hi with
      | true, true =>
          if (r2 <? b)%Z then (lo, k, n)
          else if (b <? r2)%Z then up
          else if Z.even lo then (lo, k, n) else up
      | true, false => (lo, k, n)
      | false, true => up
      | false, false => shortest f x nd n (k + 1)
      end
  end.

(** A positive binary64 value lies between [10 ^ -324] and [10 ^ 309]
    and is determined by 17 significant digits: this bounds the two
    searches. *)
Definition toString_pos (m : positive) (e : Z) : string :=
  let nd := fraction m e in
  let n0 := decimal_exponent 700 nd (-324) in
  let '(s, k, n) := shortest 17 (S754_finite false m e) nd n0 1 in
  let ds := digits_of_N (Z.to_N s) in
  if ((k <=? n) && (n <=? 21))%Z then
    ds ++ zeros (Z.to_nat (n - k))
  else if ((0 <? n) && (n <=? 21))%Z then
    substring 0 (Z.to_nat n) ds ++ "." ++
    substring (Z.to_nat n) (Z.to_nat (k - n)) ds
  else if ((-6 <? n) && (n <=? 0))%Z then
    "0." ++ zeros (Z.to_nat (- n)) ++ ds
  else
    let ex := (n - 1)%Z in
    let sg := if (ex <? 0)%Z then "-" else "+" in
    let es := digits_of_N (Z.to_N (Z.abs ex)) in
    if (k =? 1)%Z then ds ++ "e" ++ sg ++ es
    else substring 0 1 ds ++ "." ++
         substring 1 (Z.to_nat (k - 1)) ds ++ "e" ++ sg ++ es.

Definition toString (x : number) : string :=
  match x with
  | S754_nan => "NaN"
  | S754_zero _ => "0"
  | S754_infinity neg => if neg then "-Infinity" else "Infinity"
  | S754_finite neg m e =>
      (if neg then "-" else EmptyString) ++ toString_pos m e
  end.

End JsNumber.

(* ------------------------------------------------------------------ *)
(** ** JavaScript strings *)

Module JsString.

(** [s.split(sep)] for a one-character separator: never empty, the
    empty string splits into one empty segment. *)
Fixpoint split (sep : ascii) (s : string) : list string :=
  match s with
  | EmptyString => [EmptyString]
  | String c r =>
      if Ascii.eqb c sep then EmptyString :: split sep r
      else match split sep r with
           | h :: t => String c h :: t
           | [] => [String c EmptyString]
           end
  end.

(** [parts.join(sep)]. *)
Definition join (sep : string) (parts : list string) : string :=
  String.concat sep parts.

(** [s.endsWith(suffix)]. *)
Definition endsWith (s suffix : string) : bool :=
  let n := String.length s in
  let k := String.length suffix in
  if Nat.leb k n then String.eqb (substring (n - k) k s) suffix else false.

Definition digit_of (c : ascii) : option N :=
  let n := N_of_ascii c in
  if ((48 <=? n) && (n <=? 57))%N then Some (n - 48)%N else None.

(** The longest prefix of decimal digits, and what follows it. *)
Fixpoint take_digits (s : string) : list N * string :=
  match s with
  | EmptyString => ([], s)
  | String c r =>
      match digit_of c with
      | Some d => let (ds, rest) := take_digits r in (d :: ds, rest)
      | None => ([], s)
      end
  end.

Definition digits_value (ds : list N) : N :=
  fold_left (fun acc d => (10 * acc + d)%N) ds 0%N.

Definition is_ascii_space (c : ascii) : bool :=
  match N_of_ascii c with
  | 9%N | 10%N | 11%N | 12%N | 13%N | 32%N => true
  | _ => false
  end.

(** Three-byte UTF-8 encodings of WhiteSpace and LineTerminator code
    points: U+1680, U+2000..U+200A, U+2028, U+2029, U+202F, U+205F,
    U+3000 and U+FEFF. *)
Definition is_space3 (a b c : ascii) : bool :=
  match N_of_ascii a, N_of_ascii b, N_of_ascii c with
  | 225%N, 154%N, 128%N => true
  | 226%N, 128%N, n => ((128 <=? n) && (n <=? 138) || (n =? 168) || (n =? 169) || (n =? 175))%N
  | 226%N, 129%N, 159%N => true
  | 227%N, 128%N, 128%N => true
  | 239%N, 187%N, 191%N => true
  | _, _, _ => false
  end.

(** Removal of leading white space, as [parseFloat] does first. *)
Fixpoint trimStart (s : string) : string :=
  match s with
  | EmptyString => s
  | String a r =>
      if is_ascii_space a then trimStart r
      else match r with
           | String b r' =>
               if (N_of_ascii a =? 194)%N && (N_of_ascii b =? 160)%N
               then trimStart r'
               else match r' with
                    | String c r'' =>
                        if is_space3 a b c then trimStart r'' else s
                    | EmptyString => s
                    end
           | EmptyString => s
           end
  end.

(** An optional exponent part [e|E [+|-] digits]; 0 when absent or
    incomplete. *)
Definition exponent_part (s : string) : Z :=
  match s with
  | String c r =>
      if Ascii.eqb c "e"%char || Ascii.eqb c "E"%char then
        let (neg, r') :=
          match r with
          | String sg r1 =>
              if Ascii.eqb sg "-"%char then (true, r1)
              else if Ascii.eqb sg "+"%char then (false, r1)
              else (false, r)
          | EmptyString => (false, r)
          end in
        match take_digits r' with
        | ([], _) => 0%Z
        | (ds, _) => let v := Z.of_N (digits_value ds) in
                     if neg then (- v)%Z else v
        end
      else 0%Z
  | EmptyString => 0%Z
  end.

(** The global [parseFloat]: the value of the longest prefix of the
    trimmed input that is a StrDecimalLiteral, [NaN] when there is
    none. *)
Definition parseFloat (input : string) : JsNumber.number :=
  let s := trimStart input in
  let (neg, s1) :=
    match s with
    | String c r =>
        if Ascii.eqb c "-"%char then (true, r)
        else if Ascii.eqb c "+"%char then (false, r)
        else (false, s)
    | EmptyString => (false, s)
    end in
  if String.prefix "Infinity" s1 then JsNumber.Infinity neg
  else
    let (int_ds, s2) := take_digits s1 in
    let (frac, s3) :=
      match s2 with
      | String c r =>
          if Ascii.eqb c "."%char then
            let (fs, rest) := take_digits r in
            match int_ds, fs with
            | [], [] => (None, s2)
            | _, _ => (Some fs, rest)
            end
          else (None, s2)
      | EmptyString => (None, s2)
      end in
    match int_ds, frac with
    | [], None => JsNumber.NaN
    | _, _ =>
        let fs := match frac with Some fs => fs | None => [] end in
        let m := digits_value (int_ds ++ fs) in
        let e := (exponent_part s3 - Z.of_nat (List.length fs))%Z in
        JsNumber.of_decimal neg m e
    end.

End JsString.

(* ------------------------------------------------------------------ *)
(** ** Plain JavaScript objects

    The own enumerable string-keyed properties of an object, in the
    order [Object.keys], [Object.values] and [JSON.stringify] visit
    them: array-index keys first, ascending, then the other keys in the
    order of their creation. *)

Module JsObject.

Section Obj.
Context {V : Type}.

Definition t := list (string * V).

Definition empty : t := [].

(** The own property [k], if any. *)
Fixpoint get (k : string) (o : t) : option V :=
  match o with
  | [] => None
  | (k', v) :: r => if String.eqb k k' then Some v else get k r
  end.

Definition keys (o : t) : list string := map fst o.
Definition values (o : t) : list V := map snd o.

Fixpoint canonical_digits (s : string) : bool :=
  match s with
  | EmptyString => true
  | String c r =>
      match JsString.digit_of c with
      | Some _ => canonical_digits r
      | None => false
      end
  end.

(** [Some i] when [k] is an array index: the canonical decimal
    form of an integer below [2 ^ 32 - 1]. *)
Definition array_index (k : string) : option N :=
  match k with
  | EmptyString => None
  | String c r =>
      if canonical_digits k
         && (negb (Ascii.eqb c "0"%char) || String.eqb r EmptyString)
      then
        let i := JsString.digits_value (fst (JsString.take_digits k)) in
        if (i <? 4294967295)%N then Some i else None
      else None
  end.

Fixpoint replace (k : string) (v : V) (o : t) : t :=
  match o with
  | [] => []
  | (k', v') :: r =>
      if String.eqb k k' then (k', v) :: r else (k', v') :: replace k v r
  end.

Fixpoint insert_index (i : N) (k : string) (v : V) (o : t) : t :=
  match o with
  | [] => [(k, v)]
  | (k', v') :: r =>
      match array_index k' with
      | Some j => if (j <? i)%N then (k', v') :: insert_index i k v r
                  else (k, v) :: o
      | None => (k, v) :: o
      end
  end.

(** Definition or update of the own data property [k]. *)
Definition set (k : string) (v : V) (o : t) : t :=
  match get k o with
  | Some _ => replace k v o
  | None =>
      match array_index k with
      | Some i => insert_index i k v o
      | None => (o ++ [(k, v)])%list
      end
  end.

End Obj.

Arguments t : clear implicits.

End JsObject.

(* ------------------------------------------------------------------ *)
(** ** JSON values, [JSON.stringify] and [JSON.parse] *)

Module Json.

Inductive value : Type :=
| JUndefined
| JNull
| JBool (b : bool)
| JNum (n : JsNumber.number)
| JStr (s : string)
| JArr (items : list value)
| JObj (members : list (string * value)).

Definition dquote : ascii := "034"%char.
Definition backslash : ascii := "092"%char.

(** Strict equality [v === s] against a string. *)
Definition is_string (v : value) (s : string) : bool :=
  match v with
  | JStr s' => String.eqb s' s
  | _ => false
  end.

(** The property read [v[k]] on a decoded JSON value: [None] when it
    throws a TypeError ([v] is [null] or [undefined]).  Own
    properties of objects are modelled; members inherited from the
    built-in prototypes and the index and [length] properties of
    arrays and strings are not, and read as [undefined] here. *)
Definition get_property (v : value) (k : string) : option value :=
  match v with
  | JUndefined | JNull => None
  | JObj o =>
      Some (match JsObject.get k o with
            | Some x => x
            | None => JUndefined
            end)
  | _ => Some JUndefined
  end.

(** *** JSON.stringify *)

Definition hex_digit (n : N) : ascii :=
  if (n <? 10)%N then ascii_of_N (48 + n) else ascii_of_N (87 + n).

(** QuoteJSONString, without the surrounding quotes. *)
Fixpoint escape (s : string) : string :=
  match s with
  | EmptyString => EmptyString
  | String c r =>
      let n := N_of_ascii c in
      let two x := String backslash (String x (escape r)) in
      if Ascii.eqb c dquote then two dquote
      else if Ascii.eqb c backslash then two backslash
      else match n with
           | 8%N => two "b"%char
           | 9%N => two "t"%char
           | 10%N => two "n"%char
           | 12%N => two "f"%char
           | 13%N => two "r"%char
           | _ =>
               if (n <? 32)%N then
                 String backslash
                   (String "u"%char (String "0"%char (String "0"%char
                     (String (hex_digit (n / 16))
                       (String (hex_digit (n mod 16)) (escape r))))))
               else String c (escape r)
           end
  end.

Definition quote (s : string) : string :=
  String dquote (escape s ++ String dquote EmptyString).

(** [JSON.stringify v] without indentation; [None] stands for the
    result [undefined]. *)
Fixpoint stringify (v : value) : option string :=
  match v with
  | JUndefined => None
  | JNull => Some "null"
  | JBool b => Some (if b then "true" else "false")
  | JNum n => Some (if JsNumber.is_finite n then JsNumber.toString n else "null")
  | JStr s => Some (quote s)
  | JArr items =>
      Some ("[" ++ JsString.join ","
              (map (fun x => match stringify x with
                             | Some t => t
                             | None => "null"
                             end) items) ++ "]")
  | JObj members =>
      Some ("{" ++ JsString.join ","
              ((fix props (l : list (string * value)) : list string :=
                  match l with
                  | [] => []
                  | (k, x) :: r =>
                      match stringify x with
                      | Some t => (quote k ++ ":" ++ t) :: props r
                      | None => props r
                      end
                  end) members) ++ "}")
  end.

(** *** JSON.parse *)

Definition is_json_space (c : ascii) : bool :=
  match N_of_ascii c with
  | 9%N | 10%N | 13%N | 32%N => true
  | _ => false
  end.

Fixpoint skip_ws (s : string) : string :=
  match s with
  | String c r => if is_json_space c then skip_ws r else s
  | EmptyString => s
  end.

Definition hex_value (c : ascii) : option N :=
  let n := N_of_ascii c in
  if ((48 <=? n) && (n <=? 57))%N then Some (n - 48)%N
  else if ((65 <=? n) && (n <=? 70))%N then Some (n - 55)%N
  else if ((97 <=? n) && (n <=? 102))%N then Some (n - 87)%N
  else None.

(** The UTF-8 bytes of a code point (a lone surrogate is encoded the
    same way, on three bytes). *)
Definition utf8 (cp : N) : list ascii :=
  let b n := ascii_of_N n in
  (if cp <? 128 then [b cp]
   else if cp <? 2048 then [b (192 + cp / 64); b (128 + cp mod 64)]
   else if cp <? 65536 then
     [b (224 + cp / 4096); b (128 + (cp / 64) mod 64); b (128 + cp mod 64)]
   else
     [b (240 + cp / 262144); b (128 + (cp / 4096) mod 64);
      b (128 + (cp / 64) mod 64); b (128 + cp mod 64)])%N.

(** A piece of a string literal: a byte taken as it is, or a UTF-16
    code unit written [\uXXXX]. *)
Inductive piece : Type :=
| Byte (c : ascii)
| Unit16 (u : N).

Fixpoint assemble (ps : list piece) : list ascii :=
  match ps with
  | [] => []
  | Byte c :: r => c :: assemble r
  | Unit16 hi :: r =>
      match r with
      | Unit16 lo :: r' =>
          if ((55296 <=? hi) && (hi <? 56320)
              && (56320 <=? lo) && (lo <? 57344))%N
          then (utf8 (65536 + (hi - 55296) * 1024 + (lo - 56320))
                  ++ assemble r')%list
          else (utf8 hi ++ assemble r)%list
      | _ => (utf8 hi ++ assemble r)%list
      end
  end.

(** The pieces of a string literal after its opening quote, and the
    text after its closing quote. *)
Fixpoint string_pieces (s : string) : option (list piece * string) :=
  let cons p res :=
    match res with
    | Some (ps, rest) => Some (p :: ps, rest)
    | None => None
    end in
  match s with
  | EmptyString => None
  | String c r =>
      if Ascii.eqb c dquote then Some ([], r)
      else if Ascii.eqb c backslash then
        match r with
        | String e r1 =>
            let simple x := cons (Byte x) (string_pieces r1) in
            if Ascii.eqb e dquote then simple dquote
            else if Ascii.eqb e backslash then simple backslash
            else if Ascii.eqb e "/"%char then simple "/"%char
            else if Ascii.eqb e "b"%char then simple "008"%char
            else if Ascii.eqb e "f"%char then simple "012"%char
            else if Ascii.eqb e "n"%char then simple "010"%char
            else if Ascii.eqb e "r"%char then simple "013"%char
            else if Ascii.eqb e "t"%char then simple "009"%char
            else if Ascii.eqb e "u"%char then
              match r1 with
              | String h1 (String h2 (String h3 (String h4 r2))) =>
                  match hex_value h1, hex_value h2,
                        hex_value h3, hex_value h4 with
                  | Some a, Some b, Some c', Some d =>
                      cons (Unit16 (((a * 16 + b) * 16 + c') * 16 + d)%N)
                           (string_pieces r2)
                  | _, _, _, _ => None
                  end
              | _ => None
              end
            else None
        | EmptyString => None
        end
      else if (N_of_ascii c <? 32)%N then None
      else cons (Byte c) (string_pieces r)
  end.

Definition parse_string (s : string) : option (string * string) :=
  match string_pieces s with
  | Some (ps, rest) => Some (string_of_list_ascii (assemble ps), rest)
  | None => None
  end.

(** A JSON number: [-? int frac? exp?], no leading zeros, digits on
    both sides of the point. *)
Definition parse_number (s : string) : option (JsNumber.number * string) :=
  let (neg, s1) :=
    match s with
    | String c r => if Ascii.eqb c "-"%char then (true, r) else (false, s)
    | EmptyString => (false, s)
    end in
  let (int_ds, s2) := JsString.take_digits s1 in
  let int_ok :=
    match int_ds with
    | [] => false
    | [ _ ] => true
    | d :: _ => negb (d =? 0)%N
    end in
  if negb int_ok then None
  else
    let frac :=
      match s2 with
      | String c r =>
          if Ascii.eqb c "."%char then
            match JsString.take_digits r with
            | ([], _) => None
            | (fs, rest) => Some (fs, rest)
            end
          else Some ([], s2)
      | EmptyString => Some ([], s2)
      end in
    match frac with
    | None => None
    | Some (fs, s3) =>
        let ex :=
          match s3 with
          | String c r =>
              if Ascii.eqb c "e"%char || Ascii.eqb c "E"%char then
                let (eneg, r') :=
                  match r with
                  | String sg r1 =>
                      if Ascii.eqb sg "-"%char then (true, r1)
                      else if Ascii.eqb sg "+"%char then (false, r1)
                      else (false, r)
                  | EmptyString => (false, r)
                  end in
                match JsString.take_digits r' with
                | ([], _) => None
                | (ds, rest) =>
                    let v := Z.of_N (JsString.digits_value ds) in
                    Some (if eneg then (- v)%Z else v, rest)
                end
              else Some (0%Z, s3)
          | EmptyString => Some (0%Z, s3)
          end in
        match ex with
        | None => None
        | Some (e, s4) =>
            Some (JsNumber.of_decimal neg
                    (JsString.digits_value (int_ds ++ fs))
                    (e - Z.of_nat (List.length fs)), s4)
        end
    end.

(** What follows [word] at the head of [s], when [s] starts with it. *)
Fixpoint after_prefix (word s : string) : option string :=
  match word, s with
  | EmptyString, _ => Some s
  | String a word', String b s' =>
      if Ascii.eqb a b then after_prefix word' s' else None
  | String _ _, EmptyString => None
  end.

Definition literal (word : string) (v : value) (s : string)
  : option (value * string) :=
  match after_prefix word s with
  | Some rest => Some (v, rest)
  | None => None
  end.

(** One JSON value at the head of the text, and the text after it.
    The fuel bounds the depth of the calls; every call consumes input
    before it recurses, and [parse_fuel_enough] below shows that the
    fuel [parse] gives is never exhausted. *)
Fixpoint parse_value (fuel : nat) (s : string) : option (value * string) :=
  match fuel with
  | O => None
  | S f =>
      match skip_ws s with
      | EmptyString => None
      | String c r =>
          if Ascii.eqb c "{"%char then
            match skip_ws r with
            | String c' r' =>
                if Ascii.eqb c' "}"%char then Some (JObj [], r')
                else parse_members f (String c' r') []
            | EmptyString => None
            end
          else if Ascii.eqb c "["%char then
            match skip_ws r with
            | String c' r' =>
                if Ascii.eqb c' "]"%char then Some (JArr [], r')
                else parse_elements f (String c' r') []
            | EmptyString => None
            end
          else if Ascii.eqb c dquote then
            match parse_string r with
            | Some (str, rest) => Some (JStr str, rest)
            | None => None
            end
          else if Ascii.eqb c "t"%char then literal "true" (JBool true) (String c r)
          else if Ascii.eqb c "f"%char then literal "false" (JBool false) (String c r)
          else if Ascii.eqb c "n"%char then literal "null" JNull (String c r)
          else
            match parse_number (String c r) with
            | Some (n, rest) => Some (JNum n, rest)
            | None => None
            end
      end
  end

with parse_elements (fuel : nat) (s : string) (acc : list value)
  : option (value * string) :=
  match fuel with
  | O => None
  | S f =>
      match parse_value f s with
      | Some (v, r) =>
          match skip_ws r with
          | String c r' =>
              if Ascii.eqb c ","%char then parse_elements f r' (v :: acc)
              else if Ascii.eqb c "]"%char
              then Some (JArr (rev (v :: acc)), r')
              else None
          | EmptyString => None
          end
      | None => None
      end
  end

with parse_members (fuel : nat) (s : string) (acc : list (string * value))
  : option (value * string) :=
  match fuel with
  | O => None
  | S f =>
      match skip_ws s with
      | String q r =>
          if Ascii.eqb q dquote then
            match parse_string r with
            | Some (k, r1) =>
                match skip_ws r1 with
                | String c1 r2 =>
                    if Ascii.eqb c1 ":"%char then
                      match parse_value f r2 with
                      | Some (v, r3) =>
                          match skip_ws r3 with
                          | String c3 r4 =>
                              if Ascii.eqb c3 ","%char
                              then parse_members f r4 (JsObject.set k v acc)
                              else if Ascii.eqb c3 "}"%char
                              then Some (JObj (JsObject.set k v acc), r4)
                              else None
                          | EmptyString => None
                          end
                      | None => None
                      end
                    else None
                | EmptyString => None
                end
            | None => None
            end
          else None
      | EmptyString => None
      end
  end.

(** [JSON.parse text]: [None] when it throws a SyntaxError. *)
Definition parse (text : string) : option value :=
  match parse_value (2 * String.length text + 2) text with
  | Some (v, rest) =>
      match skip_ws rest with
      | EmptyString => Some v
      | String _ _ => None
      end
  | None => None
  end.

End Json.

(* ------------------------------------------------------------------ *)
(** ** The MQTT client library (paho-mqtt), as the components use it *)

Module Paho.

(** A message, inbound or outbound.  [topic] is the library's alias
    of [destinationName]. *)
Record Message : Type := {
  payloadString : string;
  destinationName : string;
  qos : nat
}.

Definition topic (m : Message) : string := destinationName m.

Record Subscription : Type := {
  filter : string;
  sub_qos : option nat
}.

(** The object given to [client.connect]; an absent key is [None].
    [onSuccess] is represented by the subscriptions the callback
    makes. *)
Record ConnectOptions : Type := {
  onSuccess : option (list Subscription);
  timeout : option nat;
  reconnect : option bool
}.

(** Whether the library reconnects by itself after the connection is
    lost: only when the [reconnect] option is given and true. *)
Definition auto_reconnect (o : ConnectOptions) : bool :=
  match reconnect o with
  | Some b => b
  | None => false
  end.

(** A client object: the options it was connected with and whether
    its session is currently established. *)
Record Client : Type := {
  options : ConnectOptions;
  connected : bool
}.

Inductive Error : Type :=
| InvalidState          (* AMQJS0011E Invalid state not connected. *)
| TypeError.            (* a method call on [null] *)

(** [client.publish(message)]: the message is handed to the session,
    or an error is thrown when there is none. *)
Definition publish (c : Client) (m : Message) : Message + Error :=
  if connected c then inl m else inr InvalidState.

End Paho.

(* ------------------------------------------------------------------ *)
(** ** The [fetch] API, as the components use it *)

Module Fetch.

(** How a request settles: the promise rejects (no response at all),
    or resolves with a response of some status and body. *)
Inductive Outcome : Type :=
| NetworkError
| Response (status : nat) (body : string).

(** [response.ok]. *)
Definition ok (status : nat) : bool :=
  Nat.leb 200 status && Nat.leb status 299.

(** The text of a body.  [response.json()] reads the bytes of the body
    as UTF-8 before it parses them: a byte order mark [EF BB BF] at the
    very start is dropped, and every byte sequence that is not
    well-formed UTF-8 becomes U+FFFD.  The text is held as its UTF-8
    bytes, so a well-formed sequence is copied as it is.

    The decoder is the one browsers run: it keeps the bytes of the
    sequence it is in the middle of, the number of continuation bytes
    still needed, and the range the next continuation byte must lie
    in. *)
Record Decoder : Type := {
  seen : list ascii;
  needed : nat;
  lower : N;
  upper : N
}.

Definition idle : Decoder :=
  {| seen := []; needed := 0; lower := 128; upper := 191 |}.

(** U+FFFD in UTF-8. *)
Definition replacement : list ascii :=
  [ascii_of_N 239; ascii_of_N 191; ascii_of_N 189].

(** A byte met between two sequences: an ASCII byte is a character of
    its own, a lead byte opens a sequence of two, three or four bytes
    (with the narrower range that keeps out overlong forms, surrogates
    and code points above U+10FFFF), any other byte is an error. *)
Definition lead (b : ascii) : list ascii * Decoder :=
  let n := N_of_ascii b in
  (if n <=? 127 then ([b], idle)
   else if (194 <=? n) && (n <=? 223) then
     ([], {| seen := [b]; needed := 1; lower := 128; upper := 191 |})
   else if (224 <=? n) && (n <=? 239) then
     ([], {| seen := [b]; needed := 2;
             lower := if n =? 224 then 160 else 128;
             upper := if n =? 237 then 159 else 191 |})
   else if (240 <=? n) && (n <=? 244) then
     ([], {| seen := [b]; needed := 3;
             lower := if n =? 240 then 144 else 128;
             upper := if n =? 244 then 143 else 191 |})
   else (replacement, idle))%N.

(** One byte of the body: the characters it completes and the state
    after it.  A byte that cannot continue the open sequence ends it
    with U+FFFD and is then read again as the start of the next one. *)
Definition feed (d : Decoder) (b : ascii) : list ascii * Decoder :=
  match needed d with
  | O => lead b
  | S k =>
      let n := N_of_ascii b in
      if ((lower d <=? n) && (n <=? upper d))%N then
        match k with
        | O => ((seen d ++ [b])%list, idle)
        | S _ =>
            ([], {| seen := (seen d ++ [b])%list; needed := k;
                    lower := 128; upper := 191 |})
        end
      else
        let (out, d') := lead b in ((replacement ++ out)%list, d')
  end.

(** The bytes that follow, a sequence cut short by the end of the body
    being an error too. *)
Fixpoint decode_from (d : Decoder) (bytes : string) : list ascii :=
  match bytes with
  | EmptyString =>
      match needed d with O => [] | S _ => replacement end
  | String b rest =>
      let (out, d') := feed d b in (out ++ decode_from d' rest)%list
  end.

Definition without_BOM (bytes : string) : string :=
  match bytes with
  | String a (String b (String c rest)) =>
      if ((N_of_ascii a =? 239) && (N_of_ascii b =? 187)
          && (N_of_ascii c =? 191))%N
      then rest else bytes
  | _ => bytes
  end.

Definition decode (bytes : string) : string :=
  string_of_list_ascii (decode_from idle (without_BOM bytes)).

(** [response.json()]: the value the text of the body stands for,
    [None] when the promise rejects. *)
Definition json (body : string) : option Json.value :=
  Json.parse (decode body).

End Fetch.

(* ------------------------------------------------------------------ *)
(** ** MediaCard.jsx: streaming aggregation of dosing throughput *)

Module MediaCard.

Record State : Type := {
  mediaThroughputPerUnit : JsObject.t JsNumber.number;
  altMediaThroughputPerUnit : JsObject.t JsNumber.number;
  mediaThroughput : JsNumber.number;
  altMediaThroughput : JsNumber.number;
  rates : Json.value
}.

(** The state set by the constructor. *)
Definition initial_state : State := {|
  mediaThroughputPerUnit := JsObject.empty;
  altMediaThroughputPerUnit := JsObject.empty;
  mediaThroughput := JsNumber.zero;
  altMediaThroughput := JsNumber.zero;
  rates := Json.JObj [("all", Json.JObj [("mediaRate", Json.JNum JsNumber.zero);
                                         ("altMediaRate", Json.JNum JsNumber.zero)])]
|}.

(** [getRecentRates], once the request has settled.  Only the last
    [then] touches the state; a rejection anywhere before it skips
    it. *)
Definition getRecentRates (st : State) (outcome : Fetch.Outcome) : State :=
  match outcome with
  | Fetch.NetworkError => st
  | Fetch.Response _ body =>
      match Fetch.json body with
      | Some data => {|
          mediaThroughputPerUnit := mediaThroughputPerUnit st;
          altMediaThroughputPerUnit := altMediaThroughputPerUnit st;
          mediaThroughput := mediaThroughput st;
          altMediaThroughput := altMediaThroughput st;
          rates := data
        |}
      | None => st
      end
  end.

(** [client.connect({'onSuccess': this.onConnect})], with the two
    subscriptions of [onConnect]. *)
Definition connect_options (experiment : string) : Paho.ConnectOptions := {|
  Paho.onSuccess := Some [
    {| Paho.filter := JsString.join "/" ["pioreactor"; "+"; experiment;
                         "throughput_calculating"; "alt_media_throughput"];
       Paho.sub_qos := None |};
    {| Paho.filter := JsString.join "/" ["pioreactor"; "+"; experiment;
                         "throughput_calculating"; "media_throughput"];
       Paho.sub_qos := None |} ];
  Paho.timeout := None;
  Paho.reconnect := None
|}.

(** The own property names of the global [Object] constructor, which
    is what [Object.hasOwnProperty] consults. *)
Definition Object_own_names : list string :=
  ["length"; "name"; "prototype"; "assign"; "getOwnPropertyDescriptor";
   "getOwnPropertyDescriptors"; "getOwnPropertyNames";
   "getOwnPropertySymbols"; "hasOwn"; "is"; "preventExtensions"; "seal";
   "create"; "defineProperties"; "defineProperty"; "freeze";
   "getPrototypeOf"; "setPrototypeOf"; "isExtensible"; "isFrozen";
   "isSealed"; "keys"; "entries"; "fromEntries"; "values"; "groupBy"].

Definition Object_hasOwnProperty (hash : string) : bool :=
  existsb (String.eqb hash) Object_own_names.

(** [object[hash] = v] for a number [v]: the inherited [__proto__]
    setter ignores a number, every other key gets an own property. *)
Definition assign (hash : string) (v : JsNumber.number)
           (object : JsObject.t JsNumber.number) : JsObject.t JsNumber.number :=
  if String.eqb hash "__proto__" then object else JsObject.set hash v object.

(** [value + object[hash]]: a missing property reads [undefined],
    which the addition converts to [NaN]. *)
Definition plus_property (value : JsNumber.number) (hash : string)
           (object : JsObject.t JsNumber.number) : JsNumber.number :=
  JsNumber.add value
    (match JsObject.get hash object with
     | Some old => old
     | None => JsNumber.NaN
     end).

Definition addOrUpdate (hash : string) (object : JsObject.t JsNumber.number)
           (value : JsNumber.number) : JsObject.t JsNumber.number :=
  if Object_hasOwnProperty hash
  then assign hash (plus_property value hash object) object
  else assign hash value object.

(** The two state keys a message selects. *)
Inductive Ref : Type := altMedia | media.

Definition object_of (r : Ref) (st : State) : JsObject.t JsNumber.number :=
  match r with
  | altMedia => altMediaThroughputPerUnit st
  | media => mediaThroughputPerUnit st
  end.

Definition total_of (r : Ref) (st : State) : JsNumber.number :=
  match r with
  | altMedia => altMediaThroughput st
  | media => mediaThroughput st
  end.

Definition set_object (r : Ref) (o : JsObject.t JsNumber.number) (st : State)
  : State :=
  match r with
  | altMedia => {|
      mediaThroughputPerUnit := mediaThroughputPerUnit st;
      altMediaThroughputPerUnit := o;
      mediaThroughput := mediaThroughput st;
      altMediaThroughput := altMediaThroughput st;
      rates := rates st |}
  | media => {|
      mediaThroughputPerUnit := o;
      altMediaThroughputPerUnit := altMediaThroughputPerUnit st;
      mediaThroughput := mediaThroughput st;
      altMediaThroughput := altMediaThroughput st;
      rates := rates st |}
  end.

Definition set_total (r : Ref) (x : JsNumber.number) (st : State) : State :=
  match r with
  | altMedia => {|
      mediaThroughputPerUnit := mediaThroughputPerUnit st;
      altMediaThroughputPerUnit := altMediaThroughputPerUnit st;
      mediaThroughput := mediaThroughput st;
      altMediaThroughput := x;
      rates := rates st |}
  | media => {|
      mediaThroughputPerUnit := mediaThroughputPerUnit st;
      altMediaThroughputPerUnit := altMediaThroughputPerUnit st;
      mediaThroughput := x;
      altMediaThroughput := altMediaThroughput st;
      rates := rates st |}
  end.

(** [Object.values(o).reduce((a, b) => a + b, 0)]. *)
Definition sum_values (o : JsObject.t JsNumber.number) : JsNumber.number :=
  fold_left (fun a b => JsNumber.add a b) (JsObject.values o) JsNumber.zero.

(** [topicParts[1]] used as a property key: a missing segment is
    [undefined], whose key is the string "undefined". *)
Definition unit_of (topicParts : list string) : string :=
  nth 1 topicParts "undefined".

Definition ref_of (topicParts : list string) : Ref :=
  if String.eqb (last topicParts EmptyString) "alt_media_throughput"
  then altMedia else media.

Definition onMessageArrived (st : State) (message : Paho.Message) : State :=
  let topic := Paho.destinationName message in
  let topicParts := JsString.split "/" topic in
  let payload := JsString.parseFloat (Paho.payloadString message) in
  let unit := unit_of topicParts in
  let ref := ref_of topicParts in
  let st1 := set_object ref (addOrUpdate unit (object_of ref st) payload) st in
  let total := sum_values (object_of ref st1) in
  set_total ref total st1.

(** The state after a sequence of arrivals, oldest first. *)
Definition run (st : State) (messages : list Paho.Message) : State :=
  fold_left onMessageArrived messages st.

(** A telemetry message as the bus delivers it. *)
Definition telemetry (unit experiment metric payload : string)
  : Paho.Message := {|
  Paho.payloadString := payload;
  Paho.destinationName :=
    JsString.join "/" ["pioreactor"; unit; experiment;
                       "throughput_calculating"; metric];
  Paho.qos := 0
|}.

End MediaCard.

(* ------------------------------------------------------------------ *)
(** ** ErrorSnackbar.jsx: notification of error and warning logs *)

Module ErrorSnackbar.

Import Json.

Record State : Type := {
  open : bool;
  renamedUnit : value;
  unit : value;
  msg : value;
  level : value;
  task : value;
  relabelMap : value
}.

Definition initial_state : State := {|
  open := false;
  renamedUnit := JStr EmptyString;
  unit := JStr EmptyString;
  msg := JStr EmptyString;
  level := JStr "error";
  task := JStr EmptyString;
  relabelMap := JObj []
|}.

(** [getRelabelMap], once the request has settled. *)
Definition getRelabelMap (st : State) (outcome : Fetch.Outcome) : State :=
  match outcome with
  | Fetch.NetworkError => st
  | Fetch.Response _ body =>
      match Fetch.json body with
      | Some data => {|
          open := open st; renamedUnit := renamedUnit st; unit := unit st;
          msg := msg st; level := level st; task := task st;
          relabelMap := data |}
      | None => st
      end
  end.

Definition handleClose (reason : string) (st : State) : State :=
  if String.eqb reason "clickaway" then st
  else {|
    open := false; renamedUnit := renamedUnit st; unit := unit st;
    msg := msg st; level := level st; task := task st;
    relabelMap := relabelMap st |}.

(** [client.connect({onSuccess: onSuccess, timeout: 180, reconnect: true})]. *)
Definition connect_options : Paho.ConnectOptions := {|
  Paho.onSuccess := Some [
    {| Paho.filter := JsString.join "/" ["pioreactor"; "+"; "+"; "logs"; "+"];
       Paho.sub_qos := Some 1 |} ];
  Paho.timeout := Some 180;
  Paho.reconnect := Some true
|}.

(** [message.topic.split("/")[1]]. *)
Definition unit_of (topic : string) : value :=
  match nth_error (JsString.split "/" topic) 1 with
  | Some u => JStr u
  | None => JUndefined
  end.

(** ToPropertyKey of the value above. *)
Definition key_of (u : value) : string :=
  match u with
  | JStr s => s
  | _ => "undefined"
  end.

Definition setRenamedUnit (v : value) (st : State) : State := {|
  open := open st; renamedUnit := v; unit := unit st;
  msg := msg st; level := level st; task := task st;
  relabelMap := relabelMap st |}.

(** The handler installed by the effect.  [labels] is the value of
    [relabelMap] the effect closed over when it ran.  A SyntaxError
    of [JSON.parse] or a TypeError of [payload.level] leaves the
    handler before any setter is called. *)
Definition onMessageArrived (labels : value) (st : State)
           (message : Paho.Message) : State :=
  match Json.parse (Paho.payloadString message) with
  | None => st
  | Some payload =>
      match get_property payload "level" with
      | None => st
      | Some lvl =>
          if (is_string lvl "ERROR" || is_string lvl "WARNING")
             && negb (JsString.endsWith (Paho.topic message) "/ui")
          then
            let u := unit_of (Paho.topic message) in
            let st1 :=
              match get_property labels (key_of u) with
              | Some label => setRenamedUnit label st
              | None => st
              end in
            match get_property payload "message",
                  get_property payload "task" with
            | Some m, Some t => {|
                open := true; renamedUnit := renamedUnit st1; unit := u;
                msg := m; level := lvl; task := t;
                relabelMap := relabelMap st1 |}
            | _, _ => st1
            end
          else st
      end
  end.

(** A log message as the bus delivers it. *)
Definition log (unit experiment source payload : string) : Paho.Message := {|
  Paho.payloadString := payload;
  Paho.destinationName :=
    JsString.join "/" ["pioreactor"; unit; experiment; "logs"; source];
  Paho.qos := 1
|}.

End ErrorSnackbar.

(* ------------------------------------------------------------------ *)
(** ** The dosing-automation dialog: command dispatch *)

Module ButtonChangeDosingDialog.

Import Json.

Record Props : Type := {
  unit : string;
  experiment : string
}.

Record State : Type := {
  open : bool;
  algoSettings : JsObject.t value;
  client : option Paho.Client;
  openSnackbar : bool
}.

Definition initial_state : State := {|
  open := false;
  algoSettings := [("automation_key", JStr "silent");
                   ("skip_first_run", JBool false)];
  client := None;
  openSnackbar := false
|}.

(** [client.connect()]: no options at all. *)
Definition connect_options : Paho.ConnectOptions := {|
  Paho.onSuccess := None;
  Paho.timeout := None;
  Paho.reconnect := None
|}.

Definition setOpen (b : bool) (st : State) : State := {|
  open := b; algoSettings := algoSettings st;
  client := client st; openSnackbar := openSnackbar st |}.

Definition setOpenSnackbar (b : bool) (st : State) : State := {|
  open := open st; algoSettings := algoSettings st;
  client := client st; openSnackbar := b |}.

Definition setAlgoSettings (o : JsObject.t value) (st : State) : State := {|
  open := open st; algoSettings := o;
  client := client st; openSnackbar := openSnackbar st |}.

Definition setClient (c : Paho.Client) (st : State) : State := {|
  open := open st; algoSettings := algoSettings st;
  client := Some c; openSnackbar := openSnackbar st |}.

Definition handleClickOpen (st : State) : State := setOpen true st.
Definition handleClose (st : State) : State := setOpen false st.
Definition handleSnackbarClose (st : State) : State := setOpenSnackbar false st.

Definition handleAlgoSelectionChange (selected : string) (st : State)
  : State :=
  setAlgoSettings
    [("automation_key", JStr selected);
     ("skip_first_run",
      match JsObject.get "skip_first_run" (algoSettings st) with
      | Some v => v
      | None => JUndefined
      end)] st.

Definition handleSkipFirstRunChange (checked : bool) (st : State) : State :=
  setAlgoSettings (JsObject.set "skip_first_run" (JBool checked)
                                (algoSettings st)) st.

(** [{...prevState, ...setting}]. *)
Definition updateFromChild (setting : JsObject.t value) (st : State)
  : State :=
  setAlgoSettings
    (fold_left (fun o kv => JsObject.set (fst kv) (snd kv) o)
               setting (algoSettings st)) st.

(** What a handler did besides updating the state. *)
Record Effects : Type := {
  published : list Paho.Message;
  console : list Paho.Error
}.

(** The message [onSubmit] builds before the [try]. *)
Definition command (props : Props) (settings : JsObject.t value)
  : Paho.Message := {|
  Paho.payloadString :=
    match stringify (JObj settings) with
    | Some text => text
    | None => EmptyString
    end;
  Paho.destinationName :=
    JsString.join "/" ["pioreactor"; unit props; experiment props;
                       "dosing_control"; "dosing_automation"; "set"];
  Paho.qos := 2
|}.

(** [onSubmit]: it returns normally in every case, the [catch]
    clause only writes the error to the console. *)
Definition onSubmit (props : Props) (st : State) : State * Effects :=
  let message := command props (algoSettings st) in
  let attempt :=
    match client st with
    | None => inr Paho.TypeError
    | Some c => Paho.publish c message
    end in
  match attempt with
  | inl sent =>
      (setOpen false (setOpenSnackbar true st),
       {| published := [sent]; console := [] |})
  | inr e =>
      (setOpen false st, {| published := []; console := [e] |})
  end.

End ButtonChangeDosingDialog.

(* ------------------------------------------------------------------ *)
(** ** DownloadData.jsx: the export form *)

Module DownloadData.

Import Json.

Record Selection : Type := {
  experimentSelection : value;
  datasetCheckbox : JsObject.t bool
}.

Record State : Type := {
  isRunning : bool;
  isError : bool;
  errorMsg : string;
  state : Selection
}.

Definition initial_state : State := {|
  isRunning := false;
  isError := false;
  errorMsg := EmptyString;
  state := {|
    experimentSelection := JStr EmptyString;
    datasetCheckbox := [("growth_rates", false); ("io_events", false);
                        ("od_readings_raw", false);
                        ("od_readings_filtered", false);
                        ("logs", false); ("alt_media_fraction", false)]
  |}
|}.

Record Request : Type := {
  url : string;
  method : string;
  body : string;
  headers : list (string * string)
}.

Definition setIsRunning (b : bool) (st : State) : State := {|
  isRunning := b; isError := isError st;
  errorMsg := errorMsg st; state := state st |}.

Definition setIsError (b : bool) (st : State) : State := {|
  isRunning := isRunning st; isError := b;
  errorMsg := errorMsg st; state := state st |}.

Definition setErrorMsg (m : string) (st : State) : State := {|
  isRunning := isRunning st; isError := isError st;
  errorMsg := m; state := state st |}.

Definition setState (s : Selection) (st : State) : State := {|
  isRunning := isRunning st; isError := isError st;
  errorMsg := errorMsg st; state := s |}.

Definition handleCheckboxChange (name : string) (checked : bool)
           (st : State) : State :=
  setState {|
    experimentSelection := experimentSelection (state st);
    datasetCheckbox := JsObject.set name checked (datasetCheckbox (state st))
  |} st.

Definition handleExperimentSelectionChange (v : value) (st : State)
  : State :=
  setState {|
    experimentSelection := v;
    datasetCheckbox := datasetCheckbox (state st)
  |} st.

(** [Object.values(state['datasetCheckbox']).some((e) => e)]. *)
Definition some_selected (s : Selection) : bool :=
  existsb (fun e => e) (JsObject.values (datasetCheckbox s)).

(** [JSON.stringify(state)]. *)
Definition stringify_state (s : Selection) : string :=
  match stringify
          (JObj [("experimentSelection", experimentSelection s);
                 ("datasetCheckbox",
                  JObj (map (fun kb => (fst kb, JBool (snd kb)))
                            (datasetCheckbox s)))]) with
  | Some text => text
  | None => EmptyString
  end.

(** [onSubmit], up to the point where [fetch] has been called: the
    next state and the requests issued. *)
Definition onSubmit (st : State) : State * list Request :=
  if negb (some_selected (state st)) then
    (setErrorMsg "At least one dataset must be selected." (setIsError true st),
     [])
  else
    (setIsRunning true st,
     [{| url := "query_datasets";
         method := "POST";
         body := stringify_state (state st);
         headers := [("Accept", "application/json");
                     ("Content-Type", "application/json")] |}]).

(** The continuation of the request: the download is triggered and
    the spinner stops, or the [catch] clause reports a server
    error.  The response must decode to something whose [filename]
    can be read. *)
Definition onSettled (st : State) (outcome : Fetch.Outcome) : State :=
  let failed :=
    setErrorMsg "Server error occurred. Check logs."
                (setIsError true (setIsRunning false st)) in
  match outcome with
  | Fetch.NetworkError => failed
  | Fetch.Response _ body =>
      match Fetch.json body with
      | Some res =>
          match get_property res "filename" with
          | Some _ => setIsRunning false st
          | None => failed
          end
      | None => failed
      end
  end.

End DownloadData.

(* ------------------------------------------------------------------ *)
(** ** The vocabulary of the specification

    The notions the specification speaks in, each defined on the
    embedding above. *)

Module Spec.

(** *** Streaming aggregator *)

(** The known units of a metric: the units its per-unit object has an
    entry for, in the order the object lists them. *)
Definition known_units (perUnit : JsObject.t JsNumber.number) : list string :=
  JsObject.keys perUnit.

(** The per-unit total of a unit, 0 for a unit never seen. *)
Definition per_unit_total (perUnit : JsObject.t JsNumber.number) (u : string)
  : JsNumber.number :=
  match JsObject.get u perUnit with
  | Some x => x
  | None => JsNumber.zero
  end.

(** "The sum of that metric's per-unit totals over all known units":
    starting from 0, the total of each known unit is looked up and
    added, one unit after the other.  Every addition is rounded, so
    the order counts; it is the order of [known_units]. *)
Definition sum_over_known_units (perUnit : JsObject.t JsNumber.number)
  : JsNumber.number :=
  fold_left (fun acc u => JsNumber.add acc (per_unit_total perUnit u))
            (known_units perUnit) JsNumber.zero.

(** "The fleet total for each metric equals the sum of that metric's
    per-unit totals over all known units." *)
Definition fleet_invariant (st : MediaCard.State) : Prop :=
  MediaCard.mediaThroughput st
    = sum_over_known_units (MediaCard.mediaThroughputPerUnit st)
  /\ MediaCard.altMediaThroughput st
    = sum_over_known_units (MediaCard.altMediaThroughputPerUnit st).

(** What the handler leaves behind: each total is the value its
    reduction returns on the per-unit object held in the state. *)
Definition totals_reduced (st : MediaCard.State) : Prop :=
  MediaCard.mediaThroughput st
    = MediaCard.sum_values (MediaCard.mediaThroughputPerUnit st)
  /\ MediaCard.altMediaThroughput st
    = MediaCard.sum_values (MediaCard.altMediaThroughputPerUnit st).

(** No unit is listed twice. *)
Definition units_distinct (st : MediaCard.State) : Prop :=
  NoDup (known_units (MediaCard.mediaThroughputPerUnit st))
  /\ NoDup (known_units (MediaCard.altMediaThroughputPerUnit st)).

(** DecodeError on a telemetry message: the payload is not a number,
    that is, [parseFloat] has nothing to return but [NaN]. *)
Definition decode_error (message : Paho.Message) : Prop :=
  JsString.parseFloat (Paho.payloadString message) = JsNumber.NaN.

(** The unit and the metric a telemetry message is accounted to. *)
Definition receiving_unit (message : Paho.Message) : string :=
  MediaCard.unit_of (JsString.split "/" (Paho.destinationName message)).

Definition metric (message : Paho.Message) : MediaCard.Ref :=
  MediaCard.ref_of (JsString.split "/" (Paho.destinationName message)).

(** The values of the aggregation scenario. *)
Definition two_and_a_half : JsNumber.number := JsNumber.of_decimal false 25 (-1).
Definition one : JsNumber.number := JsNumber.of_decimal false 1 0.
Definition a_half : JsNumber.number := JsNumber.of_decimal false 5 (-1).
Definition one_and_a_half : JsNumber.number := JsNumber.of_decimal false 15 (-1).
Definition three : JsNumber.number := JsNumber.of_decimal false 3 0.
Definition four : JsNumber.number := JsNumber.of_decimal false 4 0.
Definition five : JsNumber.number := JsNumber.of_decimal false 5 0.

(** The deltas of the aggregation scenario, as messages of the primary
    metric of experiment "expA". *)
Definition delta (unit payload : string) : Paho.Message :=
  MediaCard.telemetry unit "expA" "media_throughput" payload.

(** *** Snapshot reconciler *)

(** FetchError: "REST call non-2xx or network failure". *)
Definition fetch_error (outcome : Fetch.Outcome) : bool :=
  match outcome with
  | Fetch.NetworkError => true
  | Fetch.Response status _ => negb (Fetch.ok status)
  end.

(** The promise chain [fetch(..).then(r => r.json())] rejects: there is
    no response, or the text of its body is not JSON. *)
Definition rejected (outcome : Fetch.Outcome) : bool :=
  match outcome with
  | Fetch.NetworkError => true
  | Fetch.Response _ body =>
      match Fetch.json body with
      | Some _ => false
      | None => true
      end
  end.

(** A JSON text written with single quotes in place of double ones. *)
Definition json_text (s : string) : string :=
  string_of_list_ascii
    (map (fun c => if Ascii.eqb c "'"%char then Json.dquote else c)
         (list_ascii_of_string s)).

(** *** Command dispatcher *)

(** The underlying publish call returns without error: there is a
    client and its session is established. *)
Definition can_publish (st : ButtonChangeDosingDialog.State) : bool :=
  match ButtonChangeDosingDialog.client st with
  | Some c => Paho.connected c
  | None => false
  end.

(** The body of the dispatch scenario. *)
Definition scenario_settings : JsObject.t Json.value :=
  [("automation_key", Json.JStr "pid_morbidostat");
   ("skip_first_run", Json.JBool true)].

(** A failed dispatch is "reported as a distinct, user-visible
    failure" when the handler hands an error back to its caller or
    leaves the component in a state other than the one a dismissed
    dialog leaves.  [onSubmit] has no error result, which leaves the
    second. *)
Definition failure_reported (st st' : ButtonChangeDosingDialog.State) : Prop :=
  st' <> ButtonChangeDosingDialog.handleClose st.

(** *** Bus connection manager *)

Inductive Component : Type :=
| MediaCardComponent
| ErrorSnackbarComponent
| ButtonChangeDosingDialogComponent.

(** The options of the [connect] call of each component that creates a
    bus connection. *)
Definition connect_options (c : Component) (experiment : string)
  : Paho.ConnectOptions :=
  match c with
  | MediaCardComponent => MediaCard.connect_options experiment
  | ErrorSnackbarComponent => ErrorSnackbar.connect_options
  | ButtonChangeDosingDialogComponent =>
      ButtonChangeDosingDialog.connect_options
  end.

(** *** Log notifications *)

(** "The decoded payload's level is exactly ERROR or WARNING and the
    message's topic does not end with /ui." *)
Definition notifies (message : Paho.Message) : bool :=
  match Json.parse (Paho.payloadString message) with
  | Some payload =>
      match Json.get_property payload "level" with
      | Some lvl =>
          (Json.is_string lvl "ERROR" || Json.is_string lvl "WARNING")
          && negb (JsString.endsWith (Paho.topic message) "/ui")
      | None => false
      end
  | None => false
  end.

End Spec.

(* ------------------------------------------------------------------ *)
(** ** Further built-in conversions *)

Module JsConvert.

Import Json.

(** ToBoolean. *)
Definition truthy (v : value) : bool :=
  match v with
  | JUndefined | JNull => false
  | JBool b => b
  | JNum n =>
      match n with
      | S754_zero _ | S754_nan => false
      | _ => true
      end
  | JStr s => negb (String.eqb s EmptyString)
  | JArr _ | JObj _ => true
  end.

(** ToString, as string concatenation and template literals apply it
    to a decoded JSON value. *)
Fixpoint toString (v : value) : string :=
  match v with
  | JUndefined => "undefined"
  | JNull => "null"
  | JBool b => if b then "true" else "false"
  | JNum n => JsNumber.toString n
  | JStr s => s
  | JArr items =>
      JsString.join ","
        (map (fun x => match x with
                       | JUndefined | JNull => EmptyString
                       | _ => toString x
                       end) items)
  | JObj _ => "[object Object]"
  end.

Definition lower (c : ascii) : ascii :=
  let n := N_of_ascii c in
  if ((65 <=? n) && (n <=? 90))%N then ascii_of_N (n + 32) else c.

(** [s.toLowerCase()] on the ASCII letters; the case mapping of other
    characters is not modelled and leaves their bytes as they are. *)
Fixpoint toLowerCase (s : string) : string :=
  match s with
  | EmptyString => EmptyString
  | String c r => String (lower c) (toLowerCase r)
  end.

(** [s.replace(pattern, replacement)] for a one-character string
    pattern and replacement: only the first occurrence is replaced. *)
Fixpoint replace (pattern replacement : ascii) (s : string) : string :=
  match s with
  | EmptyString => EmptyString
  | String c r =>
      if Ascii.eqb c pattern then String replacement r
      else String c (replace pattern replacement r)
  end.

(** [s.includes(c)] for a one-character string. *)
Fixpoint includes (c : ascii) (s : string) : bool :=
  match s with
  | EmptyString => false
  | String d r => Ascii.eqb d c || includes c r
  end.

(** The number of occurrences of a character. *)
Fixpoint occurrences (c : ascii) (s : string) : nat :=
  match s with
  | EmptyString => 0
  | String d r => (if Ascii.eqb d c then 1 else 0) + occurrences c r
  end.

End JsConvert.

(* ------------------------------------------------------------------ *)
(** ** MediaCard.jsx: life cycle and table *)

Module MediaCardView.

Import Json.

(** The experiment of the props; [None] is [undefined]. *)
Definition experiment_text (experiment : option string) : string :=
  match experiment with
  | Some e => e
  | None => "undefined"
  end.

(** [componentDidUpdate]: the URLs it fetches. *)
Definition componentDidUpdate (prevExperiment experiment : option string)
  : list string :=
  match prevExperiment, experiment with
  | Some p, Some e =>
      if String.eqb p e then [] else ["/recent_media_rates/" ++ e]
  | None, None => []
  | _, _ => ["/recent_media_rates/" ++ experiment_text experiment]
  end.

(** The URLs fetched over a sequence of updates of the props, the
    component having been mounted with [mounted]; [componentDidMount]
    fetches nothing. *)
Fixpoint fetched (mounted : option string) (updates : list (option string))
  : list string :=
  match updates with
  | [] => []
  | e :: rest => (componentDidUpdate mounted e ++ fetched e rest)%list
  end.

(** The rates of the "All Pioreactors" row of [render]:
    [this.state.rates.all.mediaRate] and [.altMediaRate]; [None] when
    reading them throws. *)
Definition header_rates (st : MediaCard.State) : option (value * value) :=
  match get_property (MediaCard.rates st) "all" with
  | None => None
  | Some all =>
      match get_property all "mediaRate", get_property all "altMediaRate" with
      | Some m, Some a => Some (m, a)
      | _, _ => None
      end
  end.

(** The metric a message does not belong to. *)
Definition other (r : MediaCard.Ref) : MediaCard.Ref :=
  match r with
  | MediaCard.altMedia => MediaCard.media
  | MediaCard.media => MediaCard.altMedia
  end.

(** The units [render] makes a row for:
    [Object.keys(this.state.mediaThroughputPerUnit)]. *)
Definition row_units (st : MediaCard.State) : list string :=
  JsObject.keys (MediaCard.mediaThroughputPerUnit st).

End MediaCardView.

(* ------------------------------------------------------------------ *)
(** ** ErrorSnackbar.jsx: events and what the alert shows *)

Module ErrorSnackbarView.

Import Json.

(** What can happen to the component: a message arrives at the
    handler installed with some captured relabel map, the snackbar
    asks to be closed, or the relabel request settles. *)
Inductive Event : Type :=
| Arrived (labels : value) (message : Paho.Message)
| CloseRequested (reason : string)
| LabelsSettled (outcome : Fetch.Outcome).

Definition step (st : ErrorSnackbar.State) (ev : Event) : ErrorSnackbar.State :=
  match ev with
  | Arrived labels message => ErrorSnackbar.onMessageArrived labels st message
  | CloseRequested reason => ErrorSnackbar.handleClose reason st
  | LabelsSettled outcome => ErrorSnackbar.getRelabelMap st outcome
  end.

Definition run (st : ErrorSnackbar.State) (events : list Event)
  : ErrorSnackbar.State :=
  fold_left step events st.

(** [severity={level.toLowerCase()}]; [None] when [level] is not a
    string and the call throws. *)
Definition severity (st : ErrorSnackbar.State) : option string :=
  match ErrorSnackbar.level st with
  | JStr s => Some (JsConvert.toLowerCase s)
  | _ => None
  end.

(** [unit + (renamedUnit ? " / " + renamedUnit : "")]. *)
Definition shown_unit (st : ErrorSnackbar.State) : string :=
  JsConvert.toString (ErrorSnackbar.unit st)
  ++ (if JsConvert.truthy (ErrorSnackbar.renamedUnit st)
      then " / " ++ JsConvert.toString (ErrorSnackbar.renamedUnit st)
      else EmptyString).

End ErrorSnackbarView.

(* ------------------------------------------------------------------ *)
(** ** The endpoint each component connects to *)

Module Endpoints.

Import Json.

(** The arguments of [new Client(...)] that name the broker: one URI,
    or a host and a port.  The client identifier, which ends in a
    random number, is left out. *)
Inductive Endpoint : Type :=
| Uri (uri : string)
| HostPort (host : string) (port : nat).

Inductive Creation : Type :=
| Created (e : Endpoint)
| NotCreated        (* the effect returns before creating a client *)
| Thrown.           (* a property of [undefined] or [null] is read *)

(** [componentDidMount] of MediaCard. *)
Definition MediaCard_client (config : value) : Creation :=
  match get_property config "remote" with
  | None => Thrown
  | Some remote =>
      if JsConvert.truthy remote then
        match get_property remote "ws_url" with
        | Some u => Created (Uri ("ws://" ++ JsConvert.toString u ++ "/"))
        | None => Thrown
        end
      else
        match get_property config "network.topology" with
        | None => Thrown
        | Some topology =>
            match get_property topology "leader_hostname" with
            | Some h => Created (HostPort (JsConvert.toString h ++ ".local") 9001)
            | None => Thrown
            end
        end
  end.

(** The effect of ErrorSnackbar and of the dosing dialog, which are
    the same up to the client identifier. *)
Definition effect_client (config : value) : Creation :=
  match get_property config "network.topology" with
  | None => Thrown
  | Some topology =>
      if negb (JsConvert.truthy topology) then NotCreated
      else
        let leader :=
          match get_property topology "leader_address" with
          | Some a => Created (HostPort (JsConvert.toString a) 9001)
          | None => Thrown
          end in
        match get_property config "remote" with
        | None => Thrown
        | Some remote =>
            if JsConvert.truthy remote then
              match get_property remote "ws_url" with
              | Some u =>
                  if JsConvert.truthy u
                  then Created (Uri ("ws://" ++ JsConvert.toString u ++ "/"))
                  else leader
              | None => Thrown
              end
            else leader
        end
  end.

Definition ErrorSnackbar_client : value -> Creation := effect_client.
Definition ButtonChangeDosingDialog_client : value -> Creation := effect_client.

End Endpoints.

(* ------------------------------------------------------------------ *)
(** ** DownloadData.jsx: the events of the form *)

Module DownloadDataEvents.

Inductive Event : Type :=
| Submitted
| CheckboxChanged (name : string) (checked : bool)
| ExperimentChanged (v : Json.value)
| Settled (outcome : Fetch.Outcome).

Definition step (st : DownloadData.State) (ev : Event) : DownloadData.State :=
  match ev with
  | Submitted => fst (DownloadData.onSubmit st)
  | CheckboxChanged name checked =>
      DownloadData.handleCheckboxChange name checked st
  | ExperimentChanged v => DownloadData.handleExperimentSelectionChange v st
  | Settled outcome => DownloadData.onSettled st outcome
  end.

Definition run (st : DownloadData.State) (events : list Event)
  : DownloadData.State :=
  fold_left step events st.

End DownloadDataEvents.

(* ------------------------------------------------------------------ *)
(** ** The export child process

    The script that receives the decoded body of the export request
    and runs the command-line export. *)

Module ExportChild.

Import Json.

(** [Object.keys(options.datasetCheckbox)] filtered by
    [t => options.datasetCheckbox[t]]. *)
Definition tables (datasetCheckbox : JsObject.t value) : list string :=
  filter (fun t => JsConvert.truthy
                     (match JsObject.get t datasetCheckbox with
                      | Some v => v
                      | None => JUndefined
                      end))
         (JsObject.keys datasetCheckbox).

(** [tables.map(s => ["--tables", s]).flat()]. *)
Definition cmd_tables (ts : list string) : list string :=
  flat_map (fun s => ["--tables"; s]) ts.

(** The file name, from the experiment and [Date.now()] in
    milliseconds. *)
Definition filename (experiment : string) (now : N) : string :=
  "export_" ++ JsConvert.replace " "%char "_"%char experiment ++ "_"
    ++ JsNumber.digits_of_N (now / 1000) ++ ".zip".

Definition quoted (s : string) : string :=
  String dquote (s ++ String dquote EmptyString).

(** The arguments given to [execFile("pio", ...)]; [None] when
    [experimentSelection] is not a string, so that calling its
    [replace] throws. *)
Definition arguments (experimentSelection : value)
           (datasetCheckbox : JsObject.t value) (now : N)
  : option (list string) :=
  match experimentSelection with
  | JStr experiment =>
      Some (["run"; "download_experiment_data";
             "--experiment"; quoted experiment;
             "--output";
             quoted ("/home/pi/pioreactorui/backend/build/static/exports/"
                       ++ filename experiment now)]
            ++ cmd_tables (tables datasetCheckbox))%list
  | _ => None
  end.

(** The value the form's state takes on the other side of the
    request: each flag as a JSON boolean. *)
Definition decoded_checkbox (cb : JsObject.t bool) : JsObject.t value :=
  map (fun kb => (fst kb, JBool (snd kb))) cb.

End ExportChild.

(* ------------------------------------------------------------------ *)
(** ** Updates.jsx: the update confirmation dialog *)

Module ConfirmDialog.

Record State : Type := {
  open : bool;
  openSnackbar : bool
}.

Definition initial_state : State := {| open := false; openSnackbar := false |}.

Record Request : Type := {
  url : string;
  method : string
}.

Definition handleClickOpen (st : State) : State :=
  {| open := true; openSnackbar := openSnackbar st |}.

Definition handleClose (st : State) : State :=
  {| open := false; openSnackbar := openSnackbar st |}.

(** [updateVersion], up to the call of [fetch]. *)
Definition updateVersion (st : State) : State * list Request :=
  ({| open := false; openSnackbar := true |},
   [{| url := "/update_app"; method := "POST" |}]).

(** The continuation of the request: whether the page is reloaded. *)
Definition reloads (outcome : Fetch.Outcome) : bool :=
  match outcome with
  | Fetch.NetworkError => false
  | Fetch.Response status _ => Fetch.ok status
  end.

Inductive Event : Type :=
| ClickOpen
| Close
| UpdateNow.

Definition step (st : State) (ev : Event) : State :=
  match ev with
  | ClickOpen => handleClickOpen st
  | Close => handleClose st
  | UpdateNow => fst (updateVersion st)
  end.

Definition run (st : State) (events : list Event) : State :=
  fold_left step events st.

End ConfirmDialog.

(* ------------------------------------------------------------------ *)
(** ** JSON texts read back *)

Module JsonText.

Import Json.

(** A value reads back from its text, whatever follows the text. *)
Definition reads_back (v : value) : Prop :=
  exists text,
    stringify v = Some text
    /\ forall rest, exists f, parse_value f (text ++ rest) = Some (v, rest).

(** The texts of the members of an object, as [stringify] lists them. *)
Fixpoint member_texts (members : list (string * value)) : list string :=
  match members with
  | [] => []
  | (k, x) :: r =>
      match stringify x with
      | Some t => (quote k ++ ":" ++ t) :: member_texts r
      | None => member_texts r
      end
  end.

(** The object [JSON.parse] builds from members read one after the
    other on top of [acc]. *)
Definition merge (acc o : JsObject.t value) : JsObject.t value :=
  fold_left (fun a kv => JsObject.set (fst kv) (snd kv) a) o acc.

(** Strings, booleans and [null]. *)
Definition scalar (v : value) : bool :=
  match v with
  | JStr _ | JBool _ | JNull => true
  | _ => false
  end.

End JsonText.

(* ------------------------------------------------------------------ *)
(** * Properties *)

(** ** Numbers and objects *)

Lemma add_NaN_r (a : JsNumber.number) : JsNumber.add a JsNumber.NaN = JsNumber.NaN.
Proof. destruct a; reflexivity. Qed.

Lemma add_NaN_l (a : JsNumber.number) : JsNumber.add JsNumber.NaN a = JsNumber.NaN.
Proof. reflexivity. Qed.

(** A number other than [NaN] is [===] to itself. *)
Lemma strict_equal_refl (x : JsNumber.number) :
  x <> JsNumber.NaN -> JsNumber.strict_equal x x = true.
Proof.
  intros N. unfold JsNumber.strict_equal, SFeqb.
  destruct x as [s|s| |s m e]; simpl.
  - reflexivity.
  - destruct s; reflexivity.
  - contradiction.
  - rewrite Z.compare_refl.
    change (PosDef.Pos.compare_cont Eq m m) with (Pos.compare m m).
    rewrite Pos.compare_refl. destruct s; reflexivity.
Qed.

Lemma sum_from_NaN (l : list JsNumber.number) :
  fold_left (fun a b => JsNumber.add a b) l JsNumber.NaN = JsNumber.NaN.
Proof.
  induction l as [|x l IH]; [reflexivity|].
  change (fold_left (fun a b => JsNumber.add a b) l (JsNumber.add JsNumber.NaN x)
          = JsNumber.NaN).
  rewrite add_NaN_l. exact IH.
Qed.

Lemma sum_with_NaN (l : list JsNumber.number) (a : JsNumber.number) :
  In JsNumber.NaN l ->
  fold_left (fun a b => JsNumber.add a b) l a = JsNumber.NaN.
Proof.
  revert a. induction l as [|x l IH]; simpl; intros a H; [contradiction|].
  destruct H as [-> | H].
  - rewrite add_NaN_r. apply sum_from_NaN.
  - apply IH. exact H.
Qed.

Section ObjectLemmas.

Context {V : Type}.
Implicit Types (o : JsObject.t V) (k : string) (v : V).

Lemma get_replace_same k v o w :
  JsObject.get k o = Some w -> JsObject.get k (JsObject.replace k v o) = Some v.
Proof.
  induction o as [|[k' v'] o IH]; simpl; [discriminate|].
  destruct (String.eqb k k') eqn:E; simpl; rewrite E; auto.
Qed.

Lemma get_replace_other k k0 v o :
  k0 <> k -> JsObject.get k0 (JsObject.replace k v o) = JsObject.get k0 o.
Proof.
  intros N. induction o as [|[k' v'] o IH]; simpl; [reflexivity|].
  destruct (String.eqb k k') eqn:E; simpl.
  - apply String.eqb_eq in E. subst k'.
    destruct (String.eqb k0 k) eqn:E0; [|reflexivity].
    apply String.eqb_eq in E0. contradiction.
  - rewrite IH. reflexivity.
Qed.

Lemma get_insert_index_same i k v o :
  JsObject.get k o = None ->
  JsObject.get k (JsObject.insert_index i k v o) = Some v.
Proof.
  induction o as [|[k' v'] o IH]; simpl; intros H.
  - rewrite String.eqb_refl. reflexivity.
  - destruct (String.eqb k k') eqn:E; [discriminate|].
    destruct (JsObject.array_index k') as [j|];
      [destruct (j <? i)%N|]; simpl; rewrite ?E, ?String.eqb_refl; auto.
Qed.

Lemma get_insert_index_other i k k0 v o :
  k0 <> k ->
  JsObject.get k0 (JsObject.insert_index i k v o) = JsObject.get k0 o.
Proof.
  intros N. apply String.eqb_neq in N.
  induction o as [|[k' v'] o IH]; simpl.
  - rewrite N. reflexivity.
  - destruct (JsObject.array_index k') as [j|];
      [destruct (j <? i)%N|]; simpl; rewrite ?N, ?IH; reflexivity.
Qed.

Lemma get_app_same k v o :
  JsObject.get k o = None -> JsObject.get k (o ++ [(k, v)])%list = Some v.
Proof.
  induction o as [|[k' v'] o IH]; simpl; intros H.
  - rewrite String.eqb_refl. reflexivity.
  - destruct (String.eqb k k'); [discriminate|auto].
Qed.

Lemma get_app_other k k0 v o :
  k0 <> k -> JsObject.get k0 (o ++ [(k, v)])%list = JsObject.get k0 o.
Proof.
  intros N. apply String.eqb_neq in N.
  induction o as [|[k' v'] o IH]; simpl.
  - rewrite N. reflexivity.
  - rewrite IH. reflexivity.
Qed.

(** Reading back the property just written. *)
Lemma get_set_same k v o : JsObject.get k (JsObject.set k v o) = Some v.
Proof.
  unfold JsObject.set. destruct (JsObject.get k o) as [w|] eqn:G.
  - eapply get_replace_same; eauto.
  - destruct (JsObject.array_index k).
    + apply get_insert_index_same; assumption.
    + apply get_app_same; assumption.
Qed.

(** Writing a property leaves the others alone. *)
Lemma get_set_other k k0 v o :
  k0 <> k -> JsObject.get k0 (JsObject.set k v o) = JsObject.get k0 o.
Proof.
  intros N. unfold JsObject.set. destruct (JsObject.get k o).
  - apply get_replace_other; assumption.
  - destruct (JsObject.array_index k).
    + apply get_insert_index_other; assumption.
    + apply get_app_other; assumption.
Qed.

Lemma get_In_values k v o :
  JsObject.get k o = Some v -> In v (JsObject.values o).
Proof.
  induction o as [|[k' v'] o IH]; simpl; [discriminate|].
  destruct (String.eqb k k'); intros H.
  - left. congruence.
  - right. auto.
Qed.

End ObjectLemmas.

(** ** The keys of an object stay distinct *)

Section ObjectKeys.

Lemma keys_replace {V : Type} (k : string) (v : V) (o : JsObject.t V) :
  JsObject.keys (JsObject.replace k v o) = JsObject.keys o.
Proof.
  unfold JsObject.keys.
  induction o as [|[k' v'] o IH]; simpl; [reflexivity|].
  destruct (String.eqb k k'); simpl; [reflexivity|].
  f_equal. exact IH.
Qed.

Lemma get_None_not_In {V : Type} (k : string) (o : JsObject.t V) :
  JsObject.get k o = None -> ~ In k (JsObject.keys o).
Proof.
  induction o as [|[k' v'] o IH]; simpl; [tauto|].
  destruct (String.eqb k k') eqn:E; [discriminate|].
  apply String.eqb_neq in E. intros G [H|H]; [congruence|]. exact (IH G H).
Qed.

Lemma In_keys_insert_index {V : Type} (i : N) (k x : string) (v : V)
      (o : JsObject.t V) :
  In x (JsObject.keys (JsObject.insert_index i k v o))
  <-> x = k \/ In x (JsObject.keys o).
Proof.
  induction o as [|[k' v'] o IH]; simpl; [intuition|].
  destruct (JsObject.array_index k') as [j|]; [destruct (j <? i)%N|];
    simpl; try rewrite IH; intuition.
Qed.

Lemma NoDup_insert_index {V : Type} (i : N) (k : string) (v : V)
      (o : JsObject.t V) :
  ~ In k (JsObject.keys o) -> NoDup (JsObject.keys o) ->
  NoDup (JsObject.keys (JsObject.insert_index i k v o)).
Proof.
  induction o as [|[k' v'] o IH]; simpl; intros N D.
  - constructor; [tauto|constructor].
  - assert (D' : NoDup (k :: k' :: JsObject.keys o))
      by (constructor; [exact N|exact D]).
    destruct (JsObject.array_index k') as [j|]; [destruct (j <? i)%N|];
      simpl; try exact D'.
    inversion D as [|? ? Nk' Do]; subst. constructor.
    + rewrite In_keys_insert_index. intros [->|H]; [apply N; left; reflexivity|].
      exact (Nk' H).
    + apply IH; [intros H; apply N; right; exact H|exact Do].
Qed.

(** An assignment never makes a key appear twice. *)
Lemma NoDup_set {V : Type} (k : string) (v : V) (o : JsObject.t V) :
  NoDup (JsObject.keys o) -> NoDup (JsObject.keys (JsObject.set k v o)).
Proof.
  intros D. unfold JsObject.set. destruct (JsObject.get k o) eqn:G.
  - rewrite keys_replace. exact D.
  - apply get_None_not_In in G. destruct (JsObject.array_index k).
    + apply NoDup_insert_index; assumption.
    + unfold JsObject.keys in *. rewrite map_app. simpl.
      apply NoDup_app; [exact D|constructor; [tauto|constructor]|].
      intros x Hx [<-|[]]. exact (G Hx).
Qed.

Lemma In_get_NoDup {V : Type} (k : string) (v : V) (o : JsObject.t V) :
  NoDup (JsObject.keys o) -> In (k, v) o -> JsObject.get k o = Some v.
Proof.
  induction o as [|[k' v'] o IH]; simpl; intros D H; [contradiction|].
  inversion D as [|? ? Nk' Do]; subst.
  destruct H as [H|H].
  - injection H as -> ->. rewrite String.eqb_refl. reflexivity.
  - destruct (String.eqb k k') eqn:E; [|apply IH; assumption].
    apply String.eqb_eq in E. subst k'. exfalso. apply Nk'.
    apply (in_map fst) in H. exact H.
Qed.

End ObjectKeys.

(** ** The built-in operations on sample inputs *)

Section Samples.

Example parseFloat_decimal :
  JsString.parseFloat "2.5" = JsNumber.of_decimal false 25 (-1)
  /\ JsString.parseFloat "  -1.5e3 mL" = JsNumber.of_decimal true 1500 0
  /\ JsString.parseFloat ".5" = JsNumber.of_decimal false 5 (-1)
  /\ JsString.parseFloat "1.0" = JsNumber.of_decimal false 1 0.
Proof. vm_compute. repeat split. Qed.

Example parseFloat_not_a_number :
  JsString.parseFloat "abc" = JsNumber.NaN
  /\ JsString.parseFloat EmptyString = JsNumber.NaN
  /\ JsString.parseFloat "." = JsNumber.NaN
  /\ JsString.parseFloat "NaN" = JsNumber.NaN.
Proof. vm_compute. repeat split. Qed.

Example add_is_rounded :
  JsNumber.add (JsString.parseFloat "0.1") (JsString.parseFloat "0.2")
  = JsString.parseFloat "0.30000000000000004".
Proof. vm_compute. reflexivity. Qed.

Example toString_samples :
  map (fun text => JsNumber.toString (JsString.parseFloat text))
      ["0.1"; "2.50"; "100"; "1e21"; "0.000001"; "1e-7"; "123.456"; "-0"]
  = ["0.1"; "2.5"; "100"; "1e+21"; "0.000001"; "1e-7"; "123.456"; "0"].
Proof. vm_compute. reflexivity. Qed.

Example split_samples :
  JsString.split "/" "pioreactor/u1/expA/logs/app"
    = ["pioreactor"; "u1"; "expA"; "logs"; "app"]
  /\ JsString.split "/" EmptyString = [EmptyString]
  /\ JsString.split "/" "a/" = ["a"; EmptyString].
Proof. vm_compute. repeat split. Qed.

Example endsWith_samples :
  JsString.endsWith "pioreactor/u1/expA/logs/ui" "/ui" = true
  /\ JsString.endsWith "pioreactor/u1/expA/logs/app" "/ui" = false
  /\ JsString.endsWith "ui" "/ui" = false.
Proof. vm_compute. repeat split. Qed.

Example object_enumeration_order :
  JsObject.keys
    (JsObject.set "u1" 0 (JsObject.set "7" 1 (JsObject.set "10" 2
       (JsObject.set "u1" 3 (JsObject.set "u2" 4 JsObject.empty)))))
  = ["7"; "10"; "u2"; "u1"].
Proof. vm_compute. reflexivity. Qed.

Example parse_log_payload :
  Json.parse (Spec.json_text
    "{ 'level': 'ERROR', 'message': 'pump\u0020stalled', 'task': 'dosing_control' }")
  = Some (Json.JObj [("level", Json.JStr "ERROR");
                     ("message", Json.JStr "pump stalled");
                     ("task", Json.JStr "dosing_control")]).
Proof. vm_compute. reflexivity. Qed.

Example parse_rejects :
  map Json.parse
      ["{"; "01"; "[1,]"; "nul"; "1 2"; EmptyString;
       Spec.json_text "{'a':1,}"; Spec.json_text "'open"]
  = [None; None; None; None; None; None; None; None].
Proof. vm_compute. reflexivity. Qed.

Example stringify_round_trip :
  Json.stringify
    (Json.JObj [("experimentSelection", Json.JStr "exp A");
                ("rate", Json.JNum (JsString.parseFloat "0.25"));
                ("tags", Json.JArr [Json.JNull; Json.JBool false])])
  = Some (Spec.json_text
            "{'experimentSelection':'exp A','rate':0.25,'tags':[null,false]}").
Proof. vm_compute. reflexivity. Qed.

(** An error log of unit u1 opens the notification; the same payload
    on a topic ending in /ui does not. *)
Example error_log_opens_notification :
  let payload := Spec.json_text
    "{'level':'ERROR','message':'pump stalled','task':'dosing_control'}" in
  let labels := Json.JObj [("u1", Json.JStr "left")] in
  ErrorSnackbar.onMessageArrived labels ErrorSnackbar.initial_state
      (ErrorSnackbar.log "u1" "expA" "dosing_control" payload)
  = {| ErrorSnackbar.open := true;
       ErrorSnackbar.renamedUnit := Json.JStr "left";
       ErrorSnackbar.unit := Json.JStr "u1";
       ErrorSnackbar.msg := Json.JStr "pump stalled";
       ErrorSnackbar.level := Json.JStr "ERROR";
       ErrorSnackbar.task := Json.JStr "dosing_control";
       ErrorSnackbar.relabelMap := Json.JObj [] |}
  /\ ErrorSnackbar.onMessageArrived labels ErrorSnackbar.initial_state
        (ErrorSnackbar.log "u1" "expA" "ui" payload)
     = ErrorSnackbar.initial_state.
Proof. vm_compute. split; reflexivity. Qed.

(** The sum of the specification on two known units: 0 + 2.5 + 1.0 is
    3.5, and 0 when no unit is known. *)
Example sum_over_known_units_sample :
  Spec.sum_over_known_units
    [("u1", Spec.two_and_a_half); ("u2", Spec.one)]
  = JsNumber.of_decimal false 35 (-1)
  /\ Spec.sum_over_known_units [] = JsNumber.zero
  /\ Spec.per_unit_total [("u1", Spec.two_and_a_half)] "u2" = JsNumber.zero.
Proof. vm_compute. repeat split. Qed.

(** Reading a body as text: a leading byte order mark is dropped (a second
    one is kept), well-formed sequences are copied, and a stray byte, a
    sequence cut short, an overlong form and a surrogate become U+FFFD,
    the byte that broke a sequence being read again. *)
Example decode_samples :
  let mark s := String "239"%char (String "187"%char (String "191"%char s)) in
  let lost s := String "239"%char (String "191"%char (String "189"%char s)) in
  Fetch.decode (mark "{}") = "{}"
  /\ Fetch.decode (mark (mark "{}")) = mark "{}"
  /\ Fetch.decode "{}" = "{}"
  /\ Fetch.decode (String "195"%char (String "169"%char "!"))
     = String "195"%char (String "169"%char "!")
  /\ Fetch.decode (String "255"%char "a") = lost "a"
  /\ Fetch.decode (String "195"%char "a") = lost "a"
  /\ Fetch.decode (String "226"%char (String "130"%char EmptyString))
     = lost EmptyString
  /\ Fetch.decode (String "192"%char (String "128"%char EmptyString))
     = lost (lost EmptyString)
  /\ Fetch.decode
       (String "237"%char (String "160"%char (String "128"%char EmptyString)))
     = lost (lost (lost EmptyString)).
Proof. vm_compute. repeat split. Qed.

(** A body that starts with a byte order mark is decoded all the same, and
    one that holds a second mark is not. *)
Example json_of_marked_body :
  let mark s := String "239"%char (String "187"%char (String "191"%char s)) in
  Fetch.json (mark (Spec.json_text "{'all':1.5}"))
  = Some (Json.JObj [("all", Json.JNum Spec.one_and_a_half)])
  /\ Json.parse (mark (Spec.json_text "{'all':1.5}")) = None
  /\ Fetch.json (mark (mark (Spec.json_text "{'all':1.5}"))) = None.
Proof. vm_compute. repeat split. Qed.

End Samples.

(** ** The JSON parser consumes its input and its fuel suffices *)

Section ParserFuel.
Import Json.

Lemma skip_ws_length s : String.length (skip_ws s) <= String.length s.
Proof.
  induction s as [|c r IH]; simpl; [lia|].
  destruct (is_json_space c); simpl; lia.
Qed.

Lemma take_digits_length s :
  String.length (snd (JsString.take_digits s)) <= String.length s.
Proof.
  induction s as [|c r IH]; simpl; [lia|].
  destruct (JsString.digit_of c); simpl; [|lia].
  destruct (JsString.take_digits r); simpl in *; lia.
Qed.

Lemma take_digits_nonempty s d ds rest :
  JsString.take_digits s = (d :: ds, rest) -> String.length rest < String.length s.
Proof.
  destruct s as [|c r]; simpl; [discriminate|].
  destruct (JsString.digit_of c); [|discriminate].
  pose proof (take_digits_length r) as L.
  destruct (JsString.take_digits r); simpl in *. intros H. injection H as _ _ <-. lia.
Qed.

Lemma after_prefix_length word s rest :
  after_prefix word s = Some rest ->
  String.length rest + String.length word = String.length s.
Proof.
  revert s. induction word as [|a w IH]; intros [|b s']; simpl; intros H;
    try discriminate; try (injection H as <-; simpl; lia).
  destruct (Ascii.eqb a b); [|discriminate]. apply IH in H. lia.
Qed.

Ltac break_in H :=
  repeat match type of H with
  | context [match ?x with _ => _ end] => destruct x eqn:?; try discriminate
  end.

Lemma string_pieces_length s :
  forall ps rest,
  string_pieces s = Some (ps, rest) -> String.length rest < String.length s.
Proof.
  remember (String.length s) as n eqn:Hn. revert s Hn.
  induction n as [n IH] using lt_wf_ind. intros s Hn ps rest H.
  destruct s as [|c r]; [discriminate|]. simpl in Hn.
  cbn [string_pieces] in H.
  break_in H;
    repeat match goal with
    | E : string_pieces ?x = Some (_, _) |- _ =>
        eapply IH in E; [| | reflexivity]; [|simpl in *; subst; simpl; lia]
    end;
    injection H as <- <-; subst; simpl in *; try lia.
Qed.

Lemma parse_string_length s str rest :
  parse_string s = Some (str, rest) -> String.length rest < String.length s.
Proof.
  unfold parse_string. destruct (string_pieces s) as [[ps r]|] eqn:E; [|discriminate].
  intros H. injection H as _ <-. eapply string_pieces_length; eauto.
Qed.

Lemma take_digits_le s ds rest :
  JsString.take_digits s = (ds, rest) -> String.length rest <= String.length s.
Proof.
  intros H. pose proof (take_digits_length s) as L. rewrite H in L. exact L.
Qed.

Lemma parse_number_length s n rest :
  parse_number s = Some (n, rest) -> String.length rest < String.length s.
Proof.
  unfold parse_number. intros H.
  assert (S1 : forall neg s1,
             match s with
             | String c r => if Ascii.eqb c "-"%char then (true, r) else (false, s)
             | EmptyString => (false, s)
             end = (neg, s1) -> String.length s1 <= String.length s).
  { intros neg s1 E. destruct s as [|c r]; [injection E as _ <-; lia|].
    destruct (Ascii.eqb c "-"%char); injection E as _ <-; simpl; lia. }
  destruct (match s with
            | String c r => if Ascii.eqb c "-"%char then (true, r) else (false, s)
            | EmptyString => (false, s)
            end) as [neg s1] eqn:E1.
  specialize (S1 _ _ eq_refl).
  destruct (JsString.take_digits s1) as [int_ds s2] eqn:E2.
  assert (L2 : String.length s2 < String.length s1).
  { destruct int_ds as [|d ds]; [discriminate|].
    eapply take_digits_nonempty; eauto. }
  match type of H with (if ?b then _ else _) = _ => destruct b; [discriminate|] end.
  match type of H with match ?f with _ => _ end = _ =>
    destruct f as [[fs s3]|] eqn:E3; [|discriminate] end.
  assert (L3 : String.length s3 <= String.length s2).
  { destruct s2 as [|c r]; [injection E3 as _ <-; lia|].
    destruct (Ascii.eqb c "."%char).
    - destruct (JsString.take_digits r) as [[|f fs'] rest'] eqn:E; [discriminate|].
      injection E3 as _ <-. apply take_digits_le in E. simpl. lia.
    - injection E3 as _ <-. lia. }
  match type of H with match ?f with _ => _ end = _ =>
    destruct f as [[e s4]|] eqn:E4; [|discriminate] end.
  injection H as _ <-.
  assert (L4 : String.length s4 <= String.length s3).
  { destruct s3 as [|c r]; [injection E4 as _ <-; lia|].
    destruct (Ascii.eqb c "e"%char || Ascii.eqb c "E"%char).
    - match type of E4 with (let (_, _) := ?p in _) = _ =>
        destruct p as [eneg r'] eqn:E5 end.
      assert (String.length r' <= String.length r).
      { destruct r as [|sg r1]; [injection E5 as _ <-; lia|].
        destruct (Ascii.eqb sg "-"%char); [injection E5 as _ <-; simpl; lia|].
        destruct (Ascii.eqb sg "+"%char); injection E5 as _ <-; simpl; lia. }
      destruct (JsString.take_digits r') as [[|d ds] rest'] eqn:E; [discriminate|].
      injection E4 as _ <-. apply take_digits_le in E. simpl. lia.
    - injection E4 as _ <-. lia. }
  lia.
Qed.

Ltac length_facts :=
  repeat match goal with
  | E : skip_ws ?a = _ |- _ =>
      let L := fresh "L" in
      pose proof (skip_ws_length a) as L; rewrite E in L; clear E
  | E : parse_string _ = Some _ |- _ => apply parse_string_length in E
  | E : parse_number _ = Some _ |- _ => apply parse_number_length in E
  | E : after_prefix _ _ = Some _ |- _ => apply after_prefix_length in E
  end.

(** Each parser returns strictly less text than it was given. *)
Lemma parse_consumes (f : nat) :
  (forall s v r, parse_value f s = Some (v, r) ->
                 String.length r < String.length s)
  /\ (forall s acc v r, parse_elements f s acc = Some (v, r) ->
                        String.length r < String.length s)
  /\ (forall s acc v r, parse_members f s acc = Some (v, r) ->
                        String.length r < String.length s).
Proof.
  induction f as [|f (IHv & IHe & IHm)]; [repeat split; discriminate|].
  split; [|split].
  - intros s v r H. cbn [parse_value] in H. unfold literal in H.
    break_in H;
      repeat match goal with
      | E : parse_members f _ _ = Some _ |- _ => apply IHm in E
      | E : parse_elements f _ _ = Some _ |- _ => apply IHe in E
      end;
      length_facts; try (injection H as _ <-); simpl in *; lia.
  - intros s acc v r H. cbn [parse_elements] in H.
    break_in H;
      repeat match goal with
      | E : parse_value f _ = Some _ |- _ => apply IHv in E
      | E : parse_elements f _ _ = Some _ |- _ => apply IHe in E
      end;
      length_facts; try (injection H as _ <-); simpl in *; lia.
  - intros s acc v r H. cbn [parse_members] in H.
    break_in H;
      repeat match goal with
      | E : parse_value f _ = Some _ |- _ => apply IHv in E
      | E : parse_members f _ _ = Some _ |- _ => apply IHm in E
      end;
      length_facts; try (injection H as _ <-); simpl in *; lia.
Qed.

(** Beyond twice the length of the text, one more unit of fuel changes
    nothing. *)
Lemma parse_stable (f : nat) :
  (forall s, 2 * String.length s + 1 <= f ->
             parse_value (S f) s = parse_value f s)
  /\ (forall s acc, 2 * String.length s + 2 <= f ->
                    parse_elements (S f) s acc = parse_elements f s acc)
  /\ (forall s acc, 2 * String.length s + 2 <= f ->
                    parse_members (S f) s acc = parse_members f s acc).
Proof.
  induction f as [|f (IHv & IHe & IHm)]; [repeat split; intros; lia|].
  destruct (parse_consumes f) as (Cv & _ & _).
  split; [|split].
  - intros s B. cbn [parse_value].
    destruct (skip_ws s) as [|c r0] eqn:E; [reflexivity|]. length_facts.
    destruct (Ascii.eqb c "{"%char).
    { destruct (skip_ws r0) as [|c' r'] eqn:E'; [reflexivity|]. length_facts.
      destruct (Ascii.eqb c' "}"%char); [reflexivity|].
      apply IHm. simpl in *. lia. }
    destruct (Ascii.eqb c "["%char); [|reflexivity].
    destruct (skip_ws r0) as [|c' r'] eqn:E'; [reflexivity|]. length_facts.
    destruct (Ascii.eqb c' "]"%char); [reflexivity|].
    apply IHe. simpl in *. lia.
  - intros s acc B. cbn [parse_elements].
    rewrite IHv by lia.
    destruct (parse_value f s) as [[v r]|] eqn:E; [|reflexivity].
    apply Cv in E.
    destruct (skip_ws r) as [|c r'] eqn:E'; [reflexivity|]. length_facts.
    destruct (Ascii.eqb c ","%char); [|reflexivity].
    apply IHe. simpl in *. lia.
  - intros s acc B. cbn [parse_members].
    destruct (skip_ws s) as [|q r] eqn:E; [reflexivity|].
    destruct (Ascii.eqb q dquote); [|reflexivity].
    destruct (parse_string r) as [[k r1]|] eqn:E1; [|reflexivity].
    destruct (skip_ws r1) as [|c1 r2] eqn:E2; [reflexivity|].
    destruct (Ascii.eqb c1 ":"%char); [|reflexivity].
    length_facts.
    rewrite IHv by (simpl in *; lia).
    destruct (parse_value f r2) as [[v r3]|] eqn:E3; [|reflexivity].
    apply Cv in E3.
    destruct (skip_ws r3) as [|c3 r4] eqn:E4; [reflexivity|]. length_facts.
    destruct (Ascii.eqb c3 ","%char); [|reflexivity].
    apply IHm. simpl in *. lia.
Qed.

(** [JSON.parse] never runs out of fuel: any larger amount gives the
    result of the amount [parse] uses. *)
Lemma parse_fuel_enough (text : string) (extra : nat) :
  parse_value (extra + (2 * String.length text + 2)) text
  = parse_value (2 * String.length text + 2) text.
Proof.
  induction extra as [|k IH]; [reflexivity|].
  rewrite <- IH. apply (parse_stable (k + (2 * String.length text + 2))). lia.
Qed.

End ParserFuel.

(** ** Streaming aggregation *)

Section Aggregation.

Import MediaCard.

Lemma invariant_initial : Spec.totals_reduced initial_state.
Proof. split; reflexivity. Qed.

(** One arrival re-establishes the invariant: the total of the metric
    it touches is recomputed from the object just stored, the other
    metric is not touched. *)
Lemma invariant_step st message :
  Spec.totals_reduced st -> Spec.totals_reduced (onMessageArrived st message).
Proof.
  intros [Hm Ha]. unfold onMessageArrived, Spec.totals_reduced.
  destruct (ref_of _); simpl; split; auto.
Qed.

Lemma invariant_run messages :
  forall st, Spec.totals_reduced st -> Spec.totals_reduced (run st messages).
Proof.
  unfold run. induction messages as [|m ms IH]; simpl; intros st H.
  - exact H.
  - apply IH, invariant_step, H.
Qed.

(** *** The sum of the specification

    The sum over the known units is pinned down apart from the
    reduction of the handler: it is 0 when no unit is known, and a
    unit seen for the first time adds its total to the sum so far. *)
Lemma sum_over_no_unit :
  Spec.sum_over_known_units JsObject.empty = JsNumber.zero.
Proof. reflexivity. Qed.

Lemma sum_over_units_from (perUnit : JsObject.t JsNumber.number) :
  forall (entries : JsObject.t JsNumber.number) (acc : JsNumber.number),
    (forall u x, In (u, x) entries -> JsObject.get u perUnit = Some x) ->
    fold_left (fun a u => JsNumber.add a (Spec.per_unit_total perUnit u))
              (JsObject.keys entries) acc
    = fold_left (fun a b => JsNumber.add a b) (JsObject.values entries) acc.
Proof.
  induction entries as [|[u x] entries IH]; intros acc G; [reflexivity|].
  simpl. unfold Spec.per_unit_total at 2.
  rewrite (G u x) by (left; reflexivity).
  apply IH. intros u' x' I. apply G. right. exact I.
Qed.

(** On an object that lists no unit twice, the sum over the known
    units is the value the reduction of the handler returns. *)
Lemma sum_over_known_units_reduced (perUnit : JsObject.t JsNumber.number) :
  NoDup (Spec.known_units perUnit) ->
  Spec.sum_over_known_units perUnit = sum_values perUnit.
Proof.
  intros D. unfold Spec.sum_over_known_units, sum_values, Spec.known_units.
  apply sum_over_units_from. intros u x I. apply In_get_NoDup; assumption.
Qed.

Lemma sum_over_fresh_unit (perUnit : JsObject.t JsNumber.number)
      (u : string) (x : JsNumber.number) :
  NoDup (Spec.known_units perUnit) ->
  JsObject.get u perUnit = None ->
  JsObject.array_index u = None ->
  Spec.known_units (JsObject.set u x perUnit) = (Spec.known_units perUnit ++ [u])%list
  /\ Spec.sum_over_known_units (JsObject.set u x perUnit)
     = JsNumber.add (Spec.sum_over_known_units perUnit) x.
Proof.
  intros D G A.
  assert (D' : NoDup (Spec.known_units (JsObject.set u x perUnit)))
    by (apply NoDup_set; exact D).
  rewrite !sum_over_known_units_reduced by assumption.
  unfold Spec.known_units, sum_values, JsObject.set, JsObject.keys,
    JsObject.values.
  rewrite G, A, !map_app, fold_left_app. split; reflexivity.
Qed.

(** No unit is ever listed twice. *)
Lemma distinct_initial : Spec.units_distinct initial_state.
Proof. split; constructor. Qed.

Lemma distinct_assign (u : string) (x : JsNumber.number)
      (o : JsObject.t JsNumber.number) :
  NoDup (JsObject.keys o) -> NoDup (JsObject.keys (assign u x o)).
Proof.
  intros D. unfold assign.
  destruct (String.eqb u "__proto__"); [exact D|apply NoDup_set; exact D].
Qed.

Lemma distinct_addOrUpdate (u : string) (o : JsObject.t JsNumber.number)
      (x : JsNumber.number) :
  NoDup (JsObject.keys o) -> NoDup (JsObject.keys (addOrUpdate u o x)).
Proof.
  intros D. unfold addOrUpdate.
  destruct (Object_hasOwnProperty u); apply distinct_assign; exact D.
Qed.

Lemma distinct_step st message :
  Spec.units_distinct st -> Spec.units_distinct (onMessageArrived st message).
Proof.
  intros [Dm Da]. unfold onMessageArrived, Spec.units_distinct, Spec.known_units.
  destruct (ref_of _); simpl; split;
    try apply distinct_addOrUpdate; assumption.
Qed.

Lemma distinct_run messages :
  forall st, Spec.units_distinct st -> Spec.units_distinct (run st messages).
Proof.
  unfold run. induction messages as [|m ms IH]; simpl; intros st H.
  - exact H.
  - apply IH, distinct_step, H.
Qed.

(** The invariant read with [===]: at every step, a fleet total that
    is not [NaN] compares equal to the sum of the per-unit totals. *)
Lemma fleet_total_strictly_equals_sum_unless_NaN :
  forall (messages : list Paho.Message) (n : nat) (r : Ref),
    let st := run initial_state (firstn n messages) in
    total_of r st <> JsNumber.NaN ->
    JsNumber.strict_equal (total_of r st) (sum_values (object_of r st)) = true.
Proof.
  intros messages n r st N.
  destruct (invariant_run (firstn n messages) initial_state invariant_initial)
    as [Hm Ha].
  fold st in Hm, Ha.
  destruct r; simpl in *; [rewrite <- Ha | rewrite <- Hm];
    apply strict_equal_refl; exact N.
Qed.

(** C1 (what the code does on the scenario of the claim).  The deltas
    u1 += 2.5, u2 += 1.0, u1 += 0.5 on the primary metric, applied to
    a fresh state, leave perUnit = {u1: 0.5, u2: 1.0} and a fleet
    total of 1.5: the second delta of u1 replaces its total instead
    of being added to it, because [addOrUpdate] asks the global
    [Object], not the per-unit object, whether the unit is known.
    The result is not the {u1: 3.0, u2: 1.0} / 4.0 of the claim. *)
Theorem C1_scenario_overwrites_instead_of_adding :
  let st := run initial_state
              [Spec.delta "u1" "2.5"; Spec.delta "u2" "1.0";
               Spec.delta "u1" "0.5"] in
  mediaThroughputPerUnit st = [("u1", Spec.a_half); ("u2", Spec.one)]
  /\ mediaThroughput st = Spec.one_and_a_half
  /\ mediaThroughputPerUnit st <> [("u1", Spec.three); ("u2", Spec.one)]
  /\ mediaThroughput st <> Spec.four.
Proof.
  vm_compute. repeat split; discriminate.
Qed.

(** C2.  For every sequence of telemetry messages applied to a fresh
    state, after every single application (that is, after every
    prefix of the sequence) the fleet total of each metric equals the
    sum of that metric's per-unit totals over all known units, the
    total of each known unit being looked up and added to the sum so
    far, starting from 0: the two are the same binary64 value. *)
Theorem C2_fleet_total_is_sum_after_every_application :
  forall (messages : list Paho.Message) (n : nat),
    Spec.fleet_invariant (run initial_state (firstn n messages)).
Proof.
  intros messages n.
  destruct (invariant_run (firstn n messages) initial_state invariant_initial)
    as [Hm Ha].
  destruct (distinct_run (firstn n messages) initial_state distinct_initial)
    as [Dm Da].
  split; rewrite sum_over_known_units_reduced by assumption; assumption.
Qed.

(** C3 (what the code does on a duplicate delivery).  The delta
    u1 += 2.5 delivered twice to a fresh state leaves the total of u1
    at 2.5, exactly the state after one delivery, not at the doubled
    5.0: the second delivery overwrites the entry with the same value.
    This is the defect of C1 seen on a duplicate. *)
Theorem C3_duplicate_delivery_is_not_doubled :
  let once := run initial_state [Spec.delta "u1" "2.5"] in
  let twice := run initial_state [Spec.delta "u1" "2.5"; Spec.delta "u1" "2.5"] in
  JsObject.get "u1" (mediaThroughputPerUnit once) = Some Spec.two_and_a_half
  /\ JsObject.get "u1" (mediaThroughputPerUnit twice) = Some Spec.two_and_a_half
  /\ twice = once
  /\ JsObject.get "u1" (mediaThroughputPerUnit twice) <> Some Spec.five.
Proof.
  vm_compute. repeat split; discriminate.
Qed.

(** C6, as stated, fails: after u1 += 2.5, a message for u2 whose
    payload is the text "abc" is not discarded.  It changes the state,
    storing NaN for u2 and turning the fleet total from 2.5 into NaN. *)
Lemma C6_malformed_message_is_not_discarded :
  let st := run initial_state [Spec.delta "u1" "2.5"] in
  let bad := Spec.delta "u2" "abc" in
  Spec.decode_error bad
  /\ mediaThroughput st = Spec.two_and_a_half
  /\ onMessageArrived st bad <> st
  /\ JsObject.get "u2" (mediaThroughputPerUnit (onMessageArrived st bad))
     = Some JsNumber.NaN
  /\ mediaThroughput (onMessageArrived st bad) = JsNumber.NaN.
Proof.
  vm_compute. repeat split; discriminate.
Qed.

(** For a unit name that is not a property of the [Object]
    constructor, which is every ordinary unit name, [addOrUpdate]
    stores the new value whatever the object held. *)
Lemma addOrUpdate_overwrites hash object value :
  Object_hasOwnProperty hash = false ->
  hash <> "__proto__" ->
  JsObject.get hash (addOrUpdate hash object value) = Some value.
Proof.
  intros O N. apply String.eqb_neq in N.
  unfold addOrUpdate, assign. rewrite O, N. apply get_set_same.
Qed.

Lemma addOrUpdate_NaN hash object :
  hash <> "__proto__" ->
  JsObject.get hash (addOrUpdate hash object JsNumber.NaN) = Some JsNumber.NaN.
Proof.
  intros N. apply String.eqb_neq in N.
  unfold addOrUpdate, assign, plus_property. rewrite N.
  destruct (Object_hasOwnProperty hash); rewrite ?add_NaN_l; apply get_set_same.
Qed.

Lemma addOrUpdate_other hash object value u :
  u <> hash ->
  JsObject.get u (addOrUpdate hash object value) = JsObject.get u object.
Proof.
  intros N. unfold addOrUpdate, assign.
  destruct (Object_hasOwnProperty hash), (String.eqb hash "__proto__");
    try reflexivity; apply get_set_other; assumption.
Qed.

(** C6, amended.  A telemetry message whose payload does not decode
    as a number is applied like any other, with the value NaN: the
    entry of the receiving unit (any unit segment but [__proto__]) for
    the message's metric becomes NaN and so does the fleet total of
    that metric; the entries of all other units, the per-unit object
    and total of the other metric and the rate snapshot stay as they
    were. *)
Theorem C6_malformed_payload_is_applied_as_NaN :
  forall (st : State) (message : Paho.Message),
    Spec.decode_error message ->
    Spec.receiving_unit message <> "__proto__" ->
    JsObject.get (Spec.receiving_unit message)
        (object_of (Spec.metric message) (onMessageArrived st message))
      = Some JsNumber.NaN
    /\ total_of (Spec.metric message) (onMessageArrived st message) = JsNumber.NaN
    /\ (forall u, u <> Spec.receiving_unit message ->
          JsObject.get u (object_of (Spec.metric message)
                                    (onMessageArrived st message))
          = JsObject.get u (object_of (Spec.metric message) st))
    /\ (forall r, r <> Spec.metric message ->
          object_of r (onMessageArrived st message) = object_of r st
          /\ total_of r (onMessageArrived st message) = total_of r st)
    /\ rates (onMessageArrived st message) = rates st.
Proof.
  intros st message D N.
  unfold Spec.decode_error in D.
  unfold Spec.receiving_unit, Spec.metric in *.
  unfold onMessageArrived. rewrite D.
  set (parts := JsString.split "/" (Paho.destinationName message)) in *.
  set (o' := addOrUpdate (unit_of parts) (object_of (ref_of parts) st) JsNumber.NaN).
  assert (G : JsObject.get (unit_of parts) o' = Some JsNumber.NaN)
    by (apply addOrUpdate_NaN; exact N).
  assert (T : sum_values o' = JsNumber.NaN)
    by (apply sum_with_NaN, (get_In_values _ _ _ G)).
  assert (O : forall u, u <> unit_of parts ->
                JsObject.get u o' = JsObject.get u (object_of (ref_of parts) st))
    by (intros u Hu; apply addOrUpdate_other; exact Hu).
  destruct (ref_of parts); simpl in *.
  - split; [exact G|]. split; [exact T|]. split; [exact O|].
    split; [|reflexivity].
    intros [|] Hr; [contradiction|]. split; reflexivity.
  - split; [exact G|]. split; [exact T|]. split; [exact O|].
    split; [|reflexivity].
    intros [|] Hr; [|contradiction]. split; reflexivity.
Qed.

(** The amended C6 at the message of the counterexample. *)
Lemma C6_malformed_payload_is_applied_as_NaN_witness :
  let st := run initial_state [Spec.delta "u1" "2.5"] in
  let bad := Spec.delta "u2" "abc" in
  JsObject.get "u2" (mediaThroughputPerUnit (onMessageArrived st bad))
    = Some JsNumber.NaN
  /\ mediaThroughput (onMessageArrived st bad) = JsNumber.NaN.
Proof.
  intros st bad.
  destruct (C6_malformed_payload_is_applied_as_NaN st bad) as (G & T & _).
  - reflexivity.
  - vm_compute. discriminate.
  - split; [exact G | exact T].
Defined.

End Aggregation.

(** ** Snapshot reconciliation *)

Section Snapshot.

Import MediaCard.

(** A body of ASCII bytes only is its own text. *)
Lemma decode_from_ascii (s : string) :
  (forall c, In c (list_ascii_of_string s) -> (N_of_ascii c < 128)%N) ->
  Fetch.decode_from Fetch.idle s = list_ascii_of_string s.
Proof.
  induction s as [|c s IH]; intros A; [reflexivity|].
  assert (C : (N_of_ascii c < 128)%N) by (apply A; left; reflexivity).
  change (Fetch.decode_from Fetch.idle (String c s))
    with (let (out, d') := Fetch.lead c in
          (out ++ Fetch.decode_from d' s)%list).
  unfold Fetch.lead.
  replace (N_of_ascii c <=? 127)%N with true
    by (symmetry; apply N.leb_le; lia).
  change (list_ascii_of_string (String c s))
    with (c :: list_ascii_of_string s).
  simpl. f_equal. apply IH. intros c' I. apply A. right. exact I.
Qed.

Lemma decode_ascii (s : string) :
  (forall c, In c (list_ascii_of_string s) -> (N_of_ascii c < 128)%N) ->
  Fetch.decode s = s.
Proof.
  intros A. unfold Fetch.decode.
  assert (B : Fetch.without_BOM s = s).
  { destruct s as [|a [|b [|c s]]]; try reflexivity.
    assert (C : (N_of_ascii a < 128)%N) by (apply A; left; reflexivity).
    unfold Fetch.without_BOM.
    replace (N_of_ascii a =? 239)%N with false
      by (symmetry; apply N.eqb_neq; lia).
    reflexivity. }
  rewrite B, decode_from_ascii by exact A.
  apply string_of_list_ascii_of_string.
Qed.

(** A byte order mark in front of an ASCII body is dropped before the body
    is parsed. *)
Lemma json_drops_byte_order_mark (s : string) :
  (forall c, In c (list_ascii_of_string s) -> (N_of_ascii c < 128)%N) ->
  Fetch.json (String "239"%char (String "187"%char (String "191"%char s)))
  = Json.parse s
  /\ Fetch.json s = Json.parse s.
Proof.
  intros A. split.
  - unfold Fetch.json, Fetch.decode.
    change (Fetch.without_BOM
              (String "239"%char (String "187"%char (String "191"%char s))))
      with s.
    rewrite decode_from_ascii by exact A.
    rewrite string_of_list_ascii_of_string. reflexivity.
  - unfold Fetch.json. rewrite decode_ascii by exact A. reflexivity.
Qed.

(** The snapshot is replaced by the body of a response that starts with a
    byte order mark. *)
Example marked_body_replaces_snapshot :
  let body :=
    String "239"%char (String "187"%char (String "191"%char
      (Spec.json_text "{'all':{'mediaRate':1.5,'altMediaRate':0}}"))) in
  rates (getRecentRates initial_state (Fetch.Response 200 body))
  = Json.JObj
      [("all", Json.JObj
          [("mediaRate", Json.JNum Spec.one_and_a_half);
           ("altMediaRate", Json.JNum JsNumber.zero)])].
Proof. vm_compute. reflexivity. Qed.

(** C5, as stated, fails: a FetchError in the sense of the
    specification includes a response of status 500.  When such a
    response carries a JSON body, that body replaces the snapshot held
    before (here the all-zero default): the status is never looked
    at. *)
Lemma C5_error_response_replaces_snapshot :
  let outcome := Fetch.Response 500 (Spec.json_text "{'error':'no such experiment'}") in
  Spec.fetch_error outcome = true
  /\ getRecentRates initial_state outcome <> initial_state
  /\ rates (getRecentRates initial_state outcome)
     = Json.JObj [("error", Json.JStr "no such experiment")].
Proof.
  vm_compute. repeat split; discriminate.
Qed.

(** C5, amended.  When the request is rejected (no response arrives)
    or the body of the response, read as UTF-8 text without a leading
    byte order mark, is not JSON, the state, and with it the snapshot
    held before or the all-zero default, is unchanged.
    In every other case, whatever the status of the response, the
    decoded body replaces the snapshot wholesale and the throughput
    totals are not touched. *)
Theorem C5_snapshot_kept_on_rejection_replaced_on_any_json :
  forall (st : State) (outcome : Fetch.Outcome),
    if Spec.rejected outcome
    then getRecentRates st outcome = st
    else exists status body data,
        outcome = Fetch.Response status body
        /\ Fetch.json body = Some data
        /\ rates (getRecentRates st outcome) = data
        /\ mediaThroughputPerUnit (getRecentRates st outcome)
           = mediaThroughputPerUnit st
        /\ altMediaThroughputPerUnit (getRecentRates st outcome)
           = altMediaThroughputPerUnit st
        /\ mediaThroughput (getRecentRates st outcome) = mediaThroughput st
        /\ altMediaThroughput (getRecentRates st outcome)
           = altMediaThroughput st.
Proof.
  intros st [|status body]; [reflexivity|].
  unfold Spec.rejected, getRecentRates.
  destruct (Fetch.json body) as [data|] eqn:J; [|reflexivity].
  exists status, body, data. repeat split; assumption.
Qed.

End Snapshot.

(** ** Command dispatch *)

Section Dispatch.

Import ButtonChangeDosingDialog.

Lemma command_topic (u e : string) (settings : JsObject.t Json.value) :
  Paho.destinationName (command {| unit := u; experiment := e |} settings)
  = "pioreactor/" ++ u ++ "/" ++ e ++ "/dosing_control/dosing_automation/set".
Proof. reflexivity. Qed.

(** C4.  For every unit and experiment, dispatching the body
    {automation_key: "pid_morbidostat", skip_first_run: true} over an
    established connection publishes exactly one message: its payload
    is the JSON text of that object, its topic is
    pioreactor/<unit>/<experiment>/dosing_control/dosing_automation/set
    and its QoS is 2. *)
Theorem C4_dispatch_publishes_command_on_set_topic_at_qos_2 :
  forall (u e : string) (st : State),
    Spec.can_publish st = true ->
    algoSettings st = Spec.scenario_settings ->
    published (snd (onSubmit {| unit := u; experiment := e |} st))
    = [ {| Paho.payloadString :=
             Spec.json_text
               "{'automation_key':'pid_morbidostat','skip_first_run':true}";
           Paho.destinationName :=
             "pioreactor/" ++ u ++ "/" ++ e
               ++ "/dosing_control/dosing_automation/set";
           Paho.qos := 2 |} ].
Proof.
  intros u e st P A. unfold Spec.can_publish in P. unfold onSubmit.
  destruct (client st) as [c|]; [|discriminate].
  unfold Paho.publish. rewrite P, A. reflexivity.
Qed.

(** C4 on the scenario of the specification: unit "u1", experiment
    "expA". *)
Lemma C4_dispatch_scenario_u1_expA :
  let st := setClient {| Paho.options := connect_options; Paho.connected := true |}
              (setAlgoSettings Spec.scenario_settings initial_state) in
  published (snd (onSubmit {| unit := "u1"; experiment := "expA" |} st))
  = [ {| Paho.payloadString :=
           Spec.json_text
             "{'automation_key':'pid_morbidostat','skip_first_run':true}";
         Paho.destinationName :=
           "pioreactor/u1/expA/dosing_control/dosing_automation/set";
         Paho.qos := 2 |} ].
Proof.
  intros st.
  apply (C4_dispatch_publishes_command_on_set_topic_at_qos_2 "u1" "expA" st);
    reflexivity.
Defined.

(** C7, as stated, fails: with a client whose connection is not
    established the publish call throws, nothing is published, and
    [onSubmit] leaves the open dialog in exactly the state that
    dismissing it leaves.  The error reaches the console only. *)
Lemma C7_failed_dispatch_looks_like_a_dismissed_dialog :
  let st := handleClickOpen
              (setClient {| Paho.options := connect_options;
                            Paho.connected := false |} initial_state) in
  let result := onSubmit {| unit := "u1"; experiment := "expA" |} st in
  Spec.can_publish st = false
  /\ published (snd result) = []
  /\ console (snd result) = [Paho.InvalidState]
  /\ ~ Spec.failure_reported st (fst result).
Proof.
  vm_compute. repeat split. intros H. apply H. reflexivity.
Qed.

(** C7, amended.  When the publish call returns without error, the
    message built from the settings is published, the confirmation
    notification is opened and the dialog closes.  When it throws, the
    error is caught and written to the console, nothing is published,
    and the state is the one closing the dialog leaves: no failure is
    shown and the confirmation notification is not opened by this
    submission. *)
Theorem C7_dispatch_confirms_on_success_and_logs_on_failure :
  forall (props : Props) (st : State),
    if Spec.can_publish st
    then published (snd (onSubmit props st)) = [command props (algoSettings st)]
         /\ console (snd (onSubmit props st)) = []
         /\ fst (onSubmit props st) = handleClose (setOpenSnackbar true st)
    else published (snd (onSubmit props st)) = []
         /\ (exists e, console (snd (onSubmit props st)) = [e])
         /\ fst (onSubmit props st) = handleClose st
         /\ openSnackbar (fst (onSubmit props st)) = openSnackbar st.
Proof.
  intros props st. unfold Spec.can_publish, onSubmit, Paho.publish.
  destruct (client st) as [c|].
  - destruct (Paho.connected c); simpl; repeat split; eauto.
  - simpl. repeat split; eauto.
Qed.

End Dispatch.

(** ** Bus connections *)

Section Connections.

(** C8, as stated, fails: the connection of the error notifications is
    opened with [reconnect: true], which makes the client library
    reconnect by itself after the connection is lost. *)
Lemma C8_error_snackbar_connection_reconnects :
  Paho.auto_reconnect (Spec.connect_options Spec.ErrorSnackbarComponent "expA")
  = true.
Proof. reflexivity. Qed.

(** C8, amended.  The connections created by the media card and by the
    dosing dialog enable no automatic reconnection: their connect
    calls give no [reconnect] option.  The connection of the error
    notifications is the exception: it is opened with
    [reconnect: true] and a timeout of 180 seconds. *)
Theorem C8_only_error_snackbar_reconnects :
  forall (c : Spec.Component) (experiment : string),
    Paho.auto_reconnect (Spec.connect_options c experiment)
    = match c with
      | Spec.ErrorSnackbarComponent => true
      | _ => false
      end
    /\ Paho.reconnect (Spec.connect_options c experiment)
      = match c with
        | Spec.ErrorSnackbarComponent => Some true
        | _ => None
        end
    /\ Paho.timeout (Spec.connect_options c experiment)
      = match c with
        | Spec.ErrorSnackbarComponent => Some 180
        | _ => None
        end.
Proof. intros [| |] experiment; repeat split. Qed.

End Connections.

(** ** The export form *)

Section ExportForm.

Import DownloadData.

(** C9.  When no dataset is selected, submitting issues no request,
    raises the error flag with the message "At least one dataset must
    be selected." and leaves the running flag and the selection as they
    were.  When at least one dataset is selected, and only then, one
    POST to query_datasets is issued, carrying the selection as JSON,
    and the running flag is set. *)
Theorem C9_submit_without_dataset_sends_nothing :
  forall (st : State),
    if some_selected (state st)
    then snd (onSubmit st)
           = [ {| url := "query_datasets"; method := "POST";
                  body := stringify_state (state st);
                  headers := [("Accept", "application/json");
                              ("Content-Type", "application/json")] |} ]
         /\ isRunning (fst (onSubmit st)) = true
    else snd (onSubmit st) = []
         /\ errorMsg (fst (onSubmit st)) = "At least one dataset must be selected."
         /\ isError (fst (onSubmit st)) = true
         /\ isRunning (fst (onSubmit st)) = isRunning st
         /\ state (fst (onSubmit st)) = state st.
Proof.
  intros st. unfold onSubmit.
  destruct (some_selected (state st)); simpl; repeat split.
Qed.

End ExportForm.

(** ** Log notifications *)

Section Notifications.

Import ErrorSnackbar.

(** C10.  A log message opens and updates the notification only if its
    decoded payload has the level "ERROR" or "WARNING" and its topic
    does not end with "/ui": then the notification is open and shows
    the level, message and task of the payload and the unit segment of
    the topic.  Every other message, whatever its level or payload,
    leaves the notification state entirely unchanged. *)
Theorem C10_only_error_and_warning_logs_outside_ui_notify :
  forall (labels : Json.value) (st : State) (message : Paho.Message),
    if Spec.notifies message
    then exists payload,
        Json.parse (Paho.payloadString message) = Some payload
        /\ open (onMessageArrived labels st message) = true
        /\ (level (onMessageArrived labels st message) = Json.JStr "ERROR"
            \/ level (onMessageArrived labels st message) = Json.JStr "WARNING")
        /\ Json.get_property payload "level"
           = Some (level (onMessageArrived labels st message))
        /\ Json.get_property payload "message"
           = Some (msg (onMessageArrived labels st message))
        /\ Json.get_property payload "task"
           = Some (task (onMessageArrived labels st message))
        /\ unit (onMessageArrived labels st message)
           = unit_of (Paho.topic message)
    else onMessageArrived labels st message = st.
Proof.
  intros labels st message. unfold Spec.notifies, onMessageArrived.
  destruct (Json.parse (Paho.payloadString message)) as [payload|]; [|reflexivity].
  destruct (Json.get_property payload "level") as [lvl|] eqn:L; [|reflexivity].
  destruct ((Json.is_string lvl "ERROR" || Json.is_string lvl "WARNING")
            && negb (JsString.endsWith (Paho.topic message) "/ui")) eqn:C;
    [|reflexivity].
  exists payload. split; [reflexivity|].
  apply andb_prop in C. destruct C as [C _].
  assert (Lv : lvl = Json.JStr "ERROR" \/ lvl = Json.JStr "WARNING").
  { apply orb_prop in C. destruct lvl; simpl in C;
      try (destruct C; discriminate).
    destruct C as [C|C]; apply String.eqb_eq in C; subst; auto. }
  destruct payload; simpl in L; try discriminate;
    try (injection L as <-; destruct Lv; discriminate).
  simpl. repeat split; auto.
Qed.

End Notifications.


(** * Further properties of the code *)

(** ** Splitting and joining topics *)

Section Topics.

Lemma append_assoc (a b c : string) : (a ++ b) ++ c = a ++ (b ++ c).
Proof. induction a as [|x a IH]; simpl; [reflexivity|]. rewrite IH. reflexivity. Qed.

Lemma append_nil_r (a : string) : a ++ EmptyString = a.
Proof. induction a as [|x a IH]; simpl; [reflexivity|]. rewrite IH. reflexivity. Qed.

Lemma split_not_nil (c : ascii) (s : string) : JsString.split c s <> [].
Proof.
  destruct s as [|x r]; simpl; [discriminate|].
  destruct (Ascii.eqb x c); [discriminate|].
  destruct (JsString.split c r); discriminate.
Qed.

Lemma split_without_separator (c : ascii) (s : string) :
  JsConvert.includes c s = false -> JsString.split c s = [s].
Proof.
  induction s as [|x r IH]; simpl; [reflexivity|].
  destruct (Ascii.eqb x c); simpl; [discriminate|].
  intros H. rewrite (IH H). reflexivity.
Qed.

(** Splitting distributes over a separator. *)
Lemma split_app (c : ascii) (a b : string) :
  JsString.split c (a ++ String c b)
  = (JsString.split c a ++ JsString.split c b)%list.
Proof.
  induction a as [|x a IH]; simpl.
  - rewrite Ascii.eqb_refl. reflexivity.
  - destruct (Ascii.eqb x c); [rewrite IH; reflexivity|].
    rewrite IH. pose proof (split_not_nil c a) as N.
    destruct (JsString.split c a); [contradiction|reflexivity].
Qed.

(** What [split] gives back after [join]: the segments of each part,
    one after the other. *)
Lemma split_join (c : ascii) (part : string) (parts : list string) :
  JsString.split c (JsString.join (String c EmptyString) (part :: parts))
  = flat_map (JsString.split c) (part :: parts).
Proof.
  revert part. induction parts as [|q parts IH]; intros part.
  - simpl. rewrite app_nil_r. reflexivity.
  - change (JsString.join (String c EmptyString) (part :: q :: parts))
      with (part ++ String c (JsString.join (String c EmptyString) (q :: parts))).
    rewrite split_app, IH. reflexivity.
Qed.

End Topics.

(** ** The media card *)

Section MediaCardMore.

Import MediaCard.

Lemma get_In_keys {V : Type} (k : string) (v : V) (o : JsObject.t V) :
  JsObject.get k o = Some v -> In k (JsObject.keys o).
Proof.
  induction o as [|[k' v'] o IH]; simpl; [discriminate|].
  destruct (String.eqb k k') eqn:E; intros H.
  - left. apply String.eqb_eq in E. congruence.
  - right. auto.
Qed.

(** What [addOrUpdate] leaves under each key. *)
Lemma get_addOrUpdate (u hash : string) object value :
  JsObject.get u (addOrUpdate hash object value)
  = if String.eqb u hash
    then if String.eqb hash "__proto__" then JsObject.get hash object
         else Some (if Object_hasOwnProperty hash
                    then plus_property value hash object else value)
    else JsObject.get u object.
Proof.
  destruct (String.eqb u hash) eqn:E.
  - apply String.eqb_eq in E. subst u. unfold addOrUpdate, assign.
    destruct (String.eqb hash "__proto__"), (Object_hasOwnProperty hash);
      try reflexivity; apply get_set_same.
  - apply String.eqb_neq in E. apply addOrUpdate_other. exact E.
Qed.

Lemma object_of_onMessageArrived (r : Ref) st message :
  object_of r (onMessageArrived st message)
  = match r, Spec.metric message with
    | altMedia, altMedia | media, media =>
        addOrUpdate (Spec.receiving_unit message) (object_of r st)
                    (JsString.parseFloat (Paho.payloadString message))
    | _, _ => object_of r st
    end.
Proof.
  unfold onMessageArrived, Spec.metric, Spec.receiving_unit.
  destruct r, (ref_of _); reflexivity.
Qed.

(** X1.  A telemetry message touches one metric only: the per-unit
    object and the fleet total of the other metric, and the rate
    snapshot, are left exactly as they were. *)
Theorem message_leaves_other_metric_alone :
  forall (st : State) (message : Paho.Message),
    let r := MediaCardView.other (Spec.metric message) in
    object_of r (onMessageArrived st message) = object_of r st
    /\ total_of r (onMessageArrived st message) = total_of r st
    /\ rates (onMessageArrived st message) = rates st.
Proof.
  intros st message. unfold onMessageArrived, Spec.metric.
  destruct (ref_of _); simpl; repeat split.
Qed.

(** X2.  Within its metric, a telemetry message touches the entry of
    its own unit only: the entry of every other unit is as before. *)
Theorem message_leaves_other_units_alone :
  forall (st : State) (message : Paho.Message) (u : string),
    u <> Spec.receiving_unit message ->
    forall r, JsObject.get u (object_of r (onMessageArrived st message))
              = JsObject.get u (object_of r st).
Proof.
  intros st message u N r. rewrite object_of_onMessageArrived.
  apply String.eqb_neq in N.
  destruct r, (Spec.metric message); try reflexivity;
    rewrite get_addOrUpdate, N; reflexivity.
Qed.

Lemma message_leaves_other_units_alone_witness :
  JsObject.get "u1"
    (object_of media
       (onMessageArrived (run initial_state [Spec.delta "u1" "2.5"])
                         (Spec.delta "u2" "1.0")))
  = Some Spec.two_and_a_half.
Proof.
  rewrite (message_leaves_other_units_alone
             (run initial_state [Spec.delta "u1" "2.5"])
             (Spec.delta "u2" "1.0") "u1").
  - reflexivity.
  - vm_compute. discriminate.
Defined.

Lemma known_after_message st message r u :
  JsObject.get u (object_of r st) <> None ->
  JsObject.get u (object_of r (onMessageArrived st message)) <> None.
Proof.
  intros K. rewrite object_of_onMessageArrived.
  destruct r, (Spec.metric message); try exact K;
    rewrite get_addOrUpdate;
    destruct (String.eqb u (Spec.receiving_unit message)) eqn:E;
    try exact K;
    apply String.eqb_eq in E; subst u;
    destruct (String.eqb _ "__proto__"); try exact K; discriminate.
Qed.

(** X3.  A unit is never forgotten: once a unit has an entry for a
    metric, it has one after any further sequence of messages. *)
Theorem known_unit_stays_known :
  forall (messages : list Paho.Message) (st : State) (r : Ref) (u : string),
    JsObject.get u (object_of r st) <> None ->
    JsObject.get u (object_of r (run st messages)) <> None.
Proof.
  unfold run. induction messages as [|m ms IH]; simpl; intros st r u K.
  - exact K.
  - apply IH, known_after_message, K.
Qed.

Lemma known_unit_stays_known_witness :
  JsObject.get "u1"
    (object_of media
       (run (run initial_state [Spec.delta "u1" "2.5"])
            [Spec.delta "u2" "1.0"; Spec.delta "u3" "abc"]))
  <> None.
Proof.
  apply (known_unit_stays_known
           [Spec.delta "u2" "1.0"; Spec.delta "u3" "abc"]
           (run initial_state [Spec.delta "u1" "2.5"]) media "u1").
  vm_compute. discriminate.
Defined.

(** X4.  For a unit name that is not a property name of the [Object]
    constructor (and is not [__proto__]), the entry a message leaves
    is the value of its payload, whatever the entry was before: the
    last message wins. *)
Theorem last_message_wins :
  forall (st : State) (message : Paho.Message),
    Object_hasOwnProperty (Spec.receiving_unit message) = false ->
    Spec.receiving_unit message <> "__proto__" ->
    JsObject.get (Spec.receiving_unit message)
      (object_of (Spec.metric message) (onMessageArrived st message))
    = Some (JsString.parseFloat (Paho.payloadString message)).
Proof.
  intros st message O N. rewrite object_of_onMessageArrived.
  apply String.eqb_neq in N.
  destruct (Spec.metric message);
    rewrite get_addOrUpdate, String.eqb_refl, N, O; reflexivity.
Qed.

Lemma last_message_wins_witness :
  JsObject.get "u1"
    (object_of media
       (onMessageArrived (run initial_state [Spec.delta "u1" "2.5"])
                         (Spec.delta "u1" "0.5")))
  = Some Spec.a_half.
Proof.
  apply (last_message_wins (run initial_state [Spec.delta "u1" "2.5"])
                           (Spec.delta "u1" "0.5")).
  - reflexivity.
  - vm_compute. discriminate.
Defined.

(** X5.  Two messages of different units can be applied in either
    order: every per-unit entry of every metric comes out the same. *)
Theorem messages_of_different_units_commute :
  forall (st : State) (m1 m2 : Paho.Message),
    Spec.receiving_unit m1 <> Spec.receiving_unit m2 ->
    forall r u,
      JsObject.get u (object_of r (onMessageArrived (onMessageArrived st m1) m2))
      = JsObject.get u (object_of r (onMessageArrived (onMessageArrived st m2) m1)).
Proof.
  intros st m1 m2 N r u.
  assert (N12 : String.eqb (Spec.receiving_unit m1) (Spec.receiving_unit m2) = false)
    by (apply String.eqb_neq; exact N).
  assert (N21 : String.eqb (Spec.receiving_unit m2) (Spec.receiving_unit m1) = false)
    by (rewrite String.eqb_sym; exact N12).
  rewrite !object_of_onMessageArrived.
  destruct r, (Spec.metric m1), (Spec.metric m2); try reflexivity;
    rewrite ?get_addOrUpdate;
    destruct (String.eqb u (Spec.receiving_unit m1)) eqn:E1;
    destruct (String.eqb u (Spec.receiving_unit m2)) eqn:E2;
    try reflexivity;
    try (apply String.eqb_eq in E1; apply String.eqb_eq in E2; congruence);
    unfold plus_property; rewrite !get_addOrUpdate, ?N12, ?N21; reflexivity.
Qed.

Lemma messages_of_different_units_commute_witness :
  JsObject.get "u1"
    (object_of media
       (onMessageArrived (onMessageArrived initial_state (Spec.delta "u1" "2.5"))
                         (Spec.delta "u2" "1.0")))
  = JsObject.get "u1"
      (object_of media
         (onMessageArrived (onMessageArrived initial_state (Spec.delta "u2" "1.0"))
                           (Spec.delta "u1" "2.5"))).
Proof.
  apply (messages_of_different_units_commute initial_state
           (Spec.delta "u1" "2.5") (Spec.delta "u2" "1.0")).
  vm_compute. discriminate.
Defined.

(** X6.  Telemetry and the reload of the rate snapshot do not
    interfere: a message and a settled reload give the same state in
    either order. *)
Theorem message_and_reload_commute :
  forall (st : State) (message : Paho.Message) (outcome : Fetch.Outcome),
    getRecentRates (onMessageArrived st message) outcome
    = onMessageArrived (getRecentRates st outcome) message.
Proof.
  intros st message [|status body]; [reflexivity|].
  unfold getRecentRates. destruct (Fetch.json body); [|reflexivity].
  unfold onMessageArrived. destruct (ref_of _); reflexivity.
Qed.

(** X7.  One entry that is not a number spoils the fleet total: in
    every state reached from the constructor's, if the entry of some
    unit for a metric is NaN, the fleet total of that metric is NaN. *)
Theorem NaN_entry_spoils_fleet_total :
  forall (messages : list Paho.Message) (r : Ref) (u : string),
    JsObject.get u (object_of r (run initial_state messages)) = Some JsNumber.NaN ->
    total_of r (run initial_state messages) = JsNumber.NaN.
Proof.
  intros messages r u G.
  destruct (invariant_run messages initial_state invariant_initial) as [Hm Ha].
  apply get_In_values in G.
  destruct r; simpl in *; [rewrite Ha | rewrite Hm];
    apply sum_with_NaN; exact G.
Qed.

Lemma NaN_entry_spoils_fleet_total_witness :
  total_of media
    (run initial_state [Spec.delta "u1" "2.5"; Spec.delta "u2" "abc"])
  = JsNumber.NaN.
Proof.
  apply (NaN_entry_spoils_fleet_total
           [Spec.delta "u1" "2.5"; Spec.delta "u2" "abc"] media "u2").
  reflexivity.
Defined.

End MediaCardMore.

(** ** The table and the life cycle of the media card *)

Section MediaCardTable.

Import MediaCard.

(** X8.  The table lists a unit as soon as it has sent one message of
    the primary metric (any unit segment but [__proto__]); a message
    of the alternative metric never adds or removes a row, so a unit
    that only reports alternative media is counted in the fleet total
    without being listed. *)
Theorem rows_follow_primary_metric_only :
  forall (st : State) (message : Paho.Message),
    match Spec.metric message with
    | media =>
        Spec.receiving_unit message = "__proto__"
        \/ In (Spec.receiving_unit message)
              (MediaCardView.row_units (onMessageArrived st message))
    | altMedia =>
        MediaCardView.row_units (onMessageArrived st message)
        = MediaCardView.row_units st
    end.
Proof.
  intros st message. unfold MediaCardView.row_units.
  change (mediaThroughputPerUnit (onMessageArrived st message))
    with (object_of media (onMessageArrived st message)).
  rewrite object_of_onMessageArrived.
  destruct (Spec.metric message) eqn:M; [reflexivity|].
  destruct (String.eqb (Spec.receiving_unit message) "__proto__") eqn:P.
  - left. apply String.eqb_eq. exact P.
  - right.
    assert (G : exists v,
               JsObject.get (Spec.receiving_unit message)
                 (addOrUpdate (Spec.receiving_unit message) (object_of media st)
                    (JsString.parseFloat (Paho.payloadString message)))
               = Some v).
    { rewrite get_addOrUpdate, String.eqb_refl, P. eauto. }
    destruct G as [v G]. eapply get_In_keys. exact G.
Qed.

(** X9.  A reload whose body is JSON without an [all] entry, whatever
    its status, leaves a state in which reading the fleet rates throws:
    the card can no longer be rendered. *)
Theorem reload_without_all_breaks_render :
  forall (st : State) (status : nat) (body : string) (data : Json.value),
    Fetch.json body = Some data ->
    Json.get_property data "all" = Some Json.JUndefined ->
    MediaCardView.header_rates (getRecentRates st (Fetch.Response status body))
    = None.
Proof.
  intros st status body data J A.
  unfold MediaCardView.header_rates, getRecentRates. rewrite J. simpl.
  rewrite A. reflexivity.
Qed.

Lemma reload_without_all_breaks_render_witness :
  MediaCardView.header_rates
    (getRecentRates initial_state (Fetch.Response 200 "{}")) = None
  /\ MediaCardView.header_rates initial_state
     = Some (Json.JNum JsNumber.zero, Json.JNum JsNumber.zero).
Proof.
  split.
  - apply (reload_without_all_breaks_render initial_state 200 "{}" (Json.JObj []));
      reflexivity.
  - reflexivity.
Defined.

Lemma componentDidUpdate_nil p e :
  MediaCardView.componentDidUpdate p e = [] -> p = e.
Proof.
  destruct p as [p|], e as [e|]; simpl; try discriminate; try reflexivity.
  destruct (String.eqb p e) eqn:E; [|discriminate].
  apply String.eqb_eq in E. congruence.
Qed.

Lemma componentDidUpdate_cases p e :
  MediaCardView.componentDidUpdate p e = []
  \/ MediaCardView.componentDidUpdate p e
     = ["/recent_media_rates/" ++ MediaCardView.experiment_text e].
Proof.
  destruct p as [p|], e as [e|]; simpl; auto.
  destruct (String.eqb p e); auto.
Qed.

Lemma last_cons {A : Type} (l : list A) (x d : A) :
  last (x :: l) d = last l x.
Proof.
  revert x d. induction l as [|y l IH]; intros x d; [reflexivity|].
  change (last (x :: y :: l) d) with (last (y :: l) d).
  rewrite (IH y d), (IH y x). reflexivity.
Qed.

Lemma last_constant {A : Type} (l : list A) (d : A) :
  (forall x, In x l -> x = d) -> last l d = d.
Proof.
  induction l as [|x l IH]; simpl; intros H; [reflexivity|].
  destruct l as [|y l]; [apply H; auto|].
  apply IH. intros z Hz. apply H. right. exact Hz.
Qed.

Lemma componentDidUpdate_same p :
  MediaCardView.componentDidUpdate p p = [].
Proof.
  destruct p as [p|]; simpl; [rewrite String.eqb_refl|]; reflexivity.
Qed.

(** As long as every update shows the experiment the card was mounted
    with, nothing is fetched. *)
Lemma fetched_same (updates : list (option string)) (mounted : option string) :
  (forall e, In e updates -> e = mounted) ->
  MediaCardView.fetched mounted updates = [].
Proof.
  induction updates as [|e rest IH]; intros H; [reflexivity|].
  assert (E : e = mounted) by (apply H; left; reflexivity). subst e.
  cbn [MediaCardView.fetched]. rewrite componentDidUpdate_same.
  apply IH. intros x Hx. apply H. right. exact Hx.
Qed.

Lemma fetched_latest :
  forall (updates : list (option string)) (mounted : option string),
    match rev (MediaCardView.fetched mounted updates) with
    | [] => forall e, In e updates -> e = mounted
    | latest :: _ =>
        latest = "/recent_media_rates/"
                   ++ MediaCardView.experiment_text (last updates mounted)
    end.
Proof.
  induction updates as [|e rest IH]; intros mounted.
  - intros e [].
  - cbn [MediaCardView.fetched]. rewrite rev_app_distr, last_cons.
    specialize (IH e).
    destruct (rev (MediaCardView.fetched e rest)) as [|latest older].
    + rewrite (last_constant rest e IH). cbn [app].
      destruct (componentDidUpdate_cases mounted e) as [C|C]; rewrite C.
      * apply componentDidUpdate_nil in C. subst mounted.
        intros x [<-|Hx]; [reflexivity|apply IH, Hx].
      * reflexivity.
    + exact IH.
Qed.

Lemma fetched_app (updates more : list (option string)) :
  forall mounted,
    MediaCardView.fetched mounted (updates ++ more)
    = (MediaCardView.fetched mounted updates
       ++ MediaCardView.fetched (last updates mounted) more)%list.
Proof.
  induction updates as [|e rest IH]; intros mounted; [reflexivity|].
  rewrite last_cons. cbn [app MediaCardView.fetched].
  rewrite IH, app_assoc. reflexivity.
Qed.

(** X10.  The card fetches nothing when it is mounted.  After that
    no request is issued while the experiment stays the one the card
    was mounted with, and that is the only way for no request to be
    issued; at any point, an update that leaves the experiment as it
    is issues no request; and once the experiment has changed, the
    most recent request is always the one for the experiment
    currently shown. *)
Theorem latest_fetch_is_for_current_experiment :
  forall (updates : list (option string)) (mounted : option string),
    (MediaCardView.fetched mounted updates = []
     <-> forall e, In e updates -> e = mounted)
    /\ MediaCardView.fetched mounted (updates ++ [last updates mounted])
       = MediaCardView.fetched mounted updates
    /\ match rev (MediaCardView.fetched mounted updates) with
       | [] => forall e, In e updates -> e = mounted
       | latest :: _ =>
           latest = "/recent_media_rates/"
                      ++ MediaCardView.experiment_text (last updates mounted)
       end.
Proof.
  intros updates mounted. split; [|split].
  - split; [|apply fetched_same].
    intros F. generalize (fetched_latest updates mounted).
    rewrite F. simpl. exact (fun H => H).
  - rewrite fetched_app. cbn [MediaCardView.fetched].
    rewrite componentDidUpdate_same, !app_nil_r. reflexivity.
  - apply fetched_latest.
Qed.

(** X11.  Topic construction and decomposition agree: for a unit
    segment without a slash, a message published on
    pioreactor/<unit>/<experiment>/throughput_calculating/<metric> is
    accounted to that unit, and to the alternative metric exactly when
    the last segment is alt_media_throughput. *)
Theorem telemetry_topic_is_decoded :
  forall (unit experiment metric payload : string),
    JsConvert.includes "/" unit = false ->
    JsConvert.includes "/" metric = false ->
    Spec.receiving_unit (telemetry unit experiment metric payload) = unit
    /\ Spec.metric (telemetry unit experiment metric payload)
       = if String.eqb metric "alt_media_throughput" then altMedia else media.
Proof.
  intros unit experiment metric payload U M.
  unfold Spec.receiving_unit, Spec.metric, telemetry. cbn [Paho.destinationName].
  rewrite split_join. cbn [flat_map].
  rewrite (split_without_separator _ unit U), (split_without_separator _ metric M).
  split; [reflexivity|].
  unfold ref_of. rewrite app_nil_r.
  replace (JsString.split "/" "pioreactor" ++ [unit]
             ++ JsString.split "/" experiment
             ++ JsString.split "/" "throughput_calculating" ++ [metric])%list
    with ((JsString.split "/" "pioreactor" ++ [unit]
             ++ JsString.split "/" experiment
             ++ JsString.split "/" "throughput_calculating") ++ [metric])%list
    by (rewrite <- !app_assoc; reflexivity).
  rewrite last_last. reflexivity.
Qed.

Lemma telemetry_topic_is_decoded_witness :
  Spec.receiving_unit (telemetry "u1" "expA" "alt_media_throughput" "2.5") = "u1"
  /\ Spec.metric (telemetry "u1" "expA" "alt_media_throughput" "2.5") = altMedia.
Proof.
  apply (telemetry_topic_is_decoded "u1" "expA" "alt_media_throughput" "2.5");
    reflexivity.
Defined.

End MediaCardTable.

(** ** The error notifications *)

Section NotificationsMore.

Import ErrorSnackbar.

(** X12.  A log message never closes the notification: if it is open
    when a message arrives, it is open afterwards, whatever the
    message. *)
Theorem message_never_closes_notification :
  forall (labels : Json.value) (st : State) (message : Paho.Message),
    open st = true -> open (onMessageArrived labels st message) = true.
Proof.
  intros labels st message O. unfold onMessageArrived.
  destruct (Json.parse _) as [payload|]; [|exact O].
  destruct (Json.get_property payload "level") as [lvl|]; [|exact O].
  destruct (_ && _); [|exact O].
  destruct (Json.get_property payload "message"),
           (Json.get_property payload "task"); try reflexivity;
    destruct (Json.get_property labels _); exact O.
Qed.

Lemma message_never_closes_notification_witness :
  open (onMessageArrived (Json.JObj [])
          (onMessageArrived (Json.JObj []) initial_state
             (log "u1" "expA" "app"
                (Spec.json_text "{'level':'ERROR','message':'m','task':'t'}")))
          (log "u1" "expA" "app" "not json")) = true.
Proof.
  apply message_never_closes_notification. reflexivity.
Defined.

Lemma level_after_message labels st message :
  level (onMessageArrived labels st message) = level st
  \/ level (onMessageArrived labels st message) = Json.JStr "ERROR"
  \/ level (onMessageArrived labels st message) = Json.JStr "WARNING".
Proof.
  unfold onMessageArrived.
  destruct (Json.parse _) as [payload|]; [|auto].
  destruct (Json.get_property payload "level") as [lvl|]; [|auto].
  destruct ((Json.is_string lvl "ERROR" || Json.is_string lvl "WARNING")
            && _) eqn:C; [|auto].
  apply andb_prop in C. destruct C as [C _]. apply orb_prop in C.
  destruct (Json.get_property payload "message"),
           (Json.get_property payload "task");
    try (left; destruct (Json.get_property labels _); reflexivity);
    right; cbn [level];
    destruct lvl; simpl in C; try (destruct C; discriminate);
    destruct C as [C|C]; apply String.eqb_eq in C; subst; auto.
Qed.

Lemma level_after_step st ev :
  level (ErrorSnackbarView.step st ev) = level st
  \/ level (ErrorSnackbarView.step st ev) = Json.JStr "ERROR"
  \/ level (ErrorSnackbarView.step st ev) = Json.JStr "WARNING".
Proof.
  destruct ev as [labels message|reason|outcome]; simpl.
  - apply level_after_message.
  - left. unfold handleClose. destruct (String.eqb reason "clickaway"); reflexivity.
  - left. unfold getRelabelMap. destruct outcome as [|status body]; [reflexivity|].
    destruct (Fetch.json body); reflexivity.
Qed.

Lemma level_along_run events :
  forall st,
    (level st = Json.JStr "error" \/ level st = Json.JStr "ERROR"
     \/ level st = Json.JStr "WARNING") ->
    level (ErrorSnackbarView.run st events) = Json.JStr "error"
    \/ level (ErrorSnackbarView.run st events) = Json.JStr "ERROR"
    \/ level (ErrorSnackbarView.run st events) = Json.JStr "WARNING".
Proof.
  unfold ErrorSnackbarView.run.
  induction events as [|ev events IH]; simpl; intros st H; [exact H|].
  apply IH. destruct (level_after_step st ev) as [E|[E|E]]; rewrite E; auto.
Qed.

(** X13.  Whatever messages arrive, whatever the relabel request
    returns and however the snackbar is closed, the severity the alert
    is rendered with is "error" or "warning": [level.toLowerCase()]
    never throws and never yields another value. *)
Theorem severity_is_error_or_warning :
  forall (events : list ErrorSnackbarView.Event),
    ErrorSnackbarView.severity (ErrorSnackbarView.run initial_state events)
      = Some "error"
    \/ ErrorSnackbarView.severity (ErrorSnackbarView.run initial_state events)
      = Some "warning".
Proof.
  intros events. unfold ErrorSnackbarView.severity.
  destruct (level_along_run events initial_state) as [E|[E|E]];
    [left; reflexivity | rewrite E .. ]; auto.
Qed.

(** X14.  The handler works with the relabel map it captured when it
    was installed, not with the one in the state: a relabel request
    that settles before or after a message gives the same state. *)
Theorem message_ignores_fetched_labels :
  forall (labels : Json.value) (st : State) (message : Paho.Message)
         (outcome : Fetch.Outcome),
    getRelabelMap (onMessageArrived labels st message) outcome
    = onMessageArrived labels (getRelabelMap st outcome) message.
Proof.
  intros labels st message [|status body]; [reflexivity|].
  unfold getRelabelMap. destruct (Fetch.json body) as [data|]; [|reflexivity].
  unfold onMessageArrived.
  destruct (Json.parse _) as [payload|]; [|reflexivity].
  destruct (Json.get_property payload "level") as [lvl|]; [|reflexivity].
  destruct (_ && _); [|reflexivity].
  destruct (Json.get_property labels _),
           (Json.get_property payload "message"),
           (Json.get_property payload "task"); reflexivity.
Qed.

(** X15.  When the captured relabel map has a non-empty label for the
    unit of a notifying message, the alert names the unit as
    "<unit> / <label>". *)
Theorem alert_shows_unit_and_label :
  forall (o : JsObject.t Json.value) (st : State) (message : Paho.Message)
         (u l : string),
    Spec.notifies message = true ->
    unit_of (Paho.topic message) = Json.JStr u ->
    JsObject.get u o = Some (Json.JStr l) ->
    l <> EmptyString ->
    ErrorSnackbarView.shown_unit (onMessageArrived (Json.JObj o) st message)
    = u ++ " / " ++ l.
Proof.
  intros o st message u l N U G L.
  unfold Spec.notifies in N. unfold onMessageArrived.
  destruct (Json.parse _) as [payload|]; [|discriminate].
  destruct (Json.get_property payload "level") as [lvl|] eqn:E; [|discriminate].
  rewrite N, U. cbn [key_of Json.get_property]. rewrite G.
  assert (P : exists m t, Json.get_property payload "message" = Some m
                          /\ Json.get_property payload "task" = Some t).
  { destruct payload; simpl in E |- *; try discriminate; eauto. }
  destruct P as (m & t & -> & ->).
  unfold ErrorSnackbarView.shown_unit. cbn.
  apply String.eqb_neq in L. rewrite L. reflexivity.
Qed.

Lemma alert_shows_unit_and_label_witness :
  ErrorSnackbarView.shown_unit
    (onMessageArrived (Json.JObj [("u1", Json.JStr "left")]) initial_state
       (log "u1" "expA" "app"
          (Spec.json_text "{'level':'WARNING','message':'m','task':'t'}")))
  = "u1 / left".
Proof.
  apply (alert_shows_unit_and_label [("u1", Json.JStr "left")] initial_state
           (log "u1" "expA" "app"
              (Spec.json_text "{'level':'WARNING','message':'m','task':'t'}"))
           "u1" "left"); try reflexivity.
  discriminate.
Defined.

End NotificationsMore.

(** ** The dosing dialog *)

Section DialogMore.

Import ButtonChangeDosingDialog.

(** X16.  The segments of the topic a command is published on: the
    fleet tag, the segments of the unit, those of the experiment and
    the fixed path.  The topic has its six segments, with the unit
    second and the experiment third, exactly as long as neither name
    contains a slash. *)
Theorem command_topic_segments :
  forall (props : Props) (settings : JsObject.t Json.value),
    JsString.split "/" (Paho.destinationName (command props settings))
    = (["pioreactor"] ++ JsString.split "/" (unit props)
         ++ JsString.split "/" (experiment props)
         ++ ["dosing_control"; "dosing_automation"; "set"])%list.
Proof.
  intros props settings. unfold command. cbn [Paho.destinationName].
  rewrite split_join. reflexivity.
Qed.

Lemma get_app_last {V : Type} (k k1 : string) (v1 : V) (o : JsObject.t V) :
  JsObject.get k (o ++ [(k1, v1)])%list
  = match JsObject.get k o with
    | Some v => Some v
    | None => if String.eqb k k1 then Some v1 else None
    end.
Proof.
  induction o as [|[k' v'] o IH]; simpl; [reflexivity|].
  destruct (String.eqb k k'); [reflexivity|exact IH].
Qed.

Lemma get_merge {V : Type} (k : string) (setting : JsObject.t V) :
  forall acc : JsObject.t V,
    JsObject.get k (fold_left (fun o kv => JsObject.set (fst kv) (snd kv) o)
                              setting acc)
    = match JsObject.get k (rev setting) with
      | Some v => Some v
      | None => JsObject.get k acc
      end.
Proof.
  induction setting as [|[k1 v1] rest IH]; intros acc; [reflexivity|].
  cbn [fold_left rev fst snd]. rewrite IH, get_app_last.
  destruct (JsObject.get k (rev rest)); [reflexivity|].
  destruct (String.eqb k k1) eqn:E.
  - apply String.eqb_eq in E. subst k1. apply get_set_same.
  - apply String.eqb_neq in E. apply get_set_other. exact E.
Qed.

(** X17.  Merging the settings of the child form: a key the child
    gives takes the child's value (the last one, if it is given more
    than once), every other key keeps the value it had. *)
Theorem child_settings_override_and_keep_the_rest :
  forall (setting : JsObject.t Json.value) (st : State) (k : string),
    JsObject.get k (algoSettings (updateFromChild setting st))
    = match JsObject.get k (rev setting) with
      | Some v => Some v
      | None => JsObject.get k (algoSettings st)
      end.
Proof.
  intros setting st k. unfold updateFromChild. cbn [algoSettings setAlgoSettings].
  apply get_merge.
Qed.

(** X18.  Ticking or clearing "Skip first run" changes that one
    setting and keeps every other one, those of the child form
    included. *)
Theorem skip_toggle_keeps_other_settings :
  forall (checked : bool) (st : State) (k : string),
    JsObject.get k (algoSettings (handleSkipFirstRunChange checked st))
    = if String.eqb k "skip_first_run" then Some (Json.JBool checked)
      else JsObject.get k (algoSettings st).
Proof.
  intros checked st k. unfold handleSkipFirstRunChange.
  cbn [algoSettings setAlgoSettings].
  destruct (String.eqb k "skip_first_run") eqn:E.
  - apply String.eqb_eq in E. subst k. apply get_set_same.
  - apply String.eqb_neq in E. apply get_set_other. exact E.
Qed.

(** X19.  After an automation is chosen in the selector, a submitted
    command carries exactly two fields, the chosen key and the
    skip-first-run flag as it was: whatever the child form had
    contributed for the automation chosen before is not sent. *)
Theorem command_after_selection_has_two_fields :
  forall (props : Props) (st : State) (selected : string) (skip : bool),
    Spec.can_publish st = true ->
    JsObject.get "skip_first_run" (algoSettings st) = Some (Json.JBool skip) ->
    map Paho.payloadString
        (published (snd (onSubmit props (handleAlgoSelectionChange selected st))))
    = [ "{" ++ Json.quote "automation_key" ++ ":" ++ Json.quote selected
          ++ "," ++ Json.quote "skip_first_run" ++ ":"
          ++ (if skip then "true" else "false") ++ "}" ].
Proof.
  intros props st selected skip P G. unfold Spec.can_publish in P.
  unfold onSubmit, handleAlgoSelectionChange, Paho.publish.
  cbn [client setAlgoSettings algoSettings].
  destruct (client st) as [c|]; [|discriminate]. rewrite P, G.
  destruct skip; cbn; rewrite !append_assoc; reflexivity.
Qed.

Lemma command_after_selection_has_two_fields_witness :
  let st := updateFromChild [("volume", Json.JStr "0.5")]
              (setClient {| Paho.options := connect_options;
                            Paho.connected := true |} initial_state) in
  map Paho.payloadString
      (published (snd (onSubmit {| unit := "u1"; experiment := "expA" |}
                                (handleAlgoSelectionChange "chemostat" st))))
  = [ Spec.json_text "{'automation_key':'chemostat','skip_first_run':false}" ].
Proof.
  intros st.
  apply (command_after_selection_has_two_fields
           {| unit := "u1"; experiment := "expA" |} st "chemostat" false);
    reflexivity.
Defined.

End DialogMore.

(** ** Endpoints *)

Section EndpointsMore.

Import Endpoints.

(** X20.  With a remote configuration that gives a non-empty
    [ws_url], and a network topology present, the three components
    open their connection to the same place, ws://<ws_url>/. *)
Theorem components_agree_on_remote_endpoint :
  forall (config remote topology : Json.value) (url : string),
    Json.get_property config "remote" = Some remote ->
    Json.get_property remote "ws_url" = Some (Json.JStr url) ->
    url <> EmptyString ->
    Json.get_property config "network.topology" = Some topology ->
    JsConvert.truthy topology = true ->
    MediaCard_client config = Created (Uri ("ws://" ++ url ++ "/"))
    /\ ErrorSnackbar_client config = Created (Uri ("ws://" ++ url ++ "/"))
    /\ ButtonChangeDosingDialog_client config
       = Created (Uri ("ws://" ++ url ++ "/")).
Proof.
  intros config remote topology url R W U T TT.
  assert (TR : JsConvert.truthy remote = true).
  { destruct remote; simpl in W; try discriminate; reflexivity. }
  apply String.eqb_neq in U.
  unfold ErrorSnackbar_client, ButtonChangeDosingDialog_client,
    effect_client, MediaCard_client.
  rewrite R, T, TR, TT, W. cbn. rewrite U. repeat split.
Qed.

Lemma components_agree_on_remote_endpoint_witness :
  let config :=
    Json.JObj [("network.topology",
                Json.JObj [("leader_hostname", Json.JStr "leader");
                           ("leader_address", Json.JStr "10.0.0.1")]);
               ("remote", Json.JObj [("ws_url", Json.JStr "lab.example:9001")])] in
  MediaCard_client config = Created (Uri "ws://lab.example:9001/")
  /\ ErrorSnackbar_client config = Created (Uri "ws://lab.example:9001/")
  /\ ButtonChangeDosingDialog_client config
     = Created (Uri "ws://lab.example:9001/").
Proof.
  intros config.
  apply (components_agree_on_remote_endpoint config
           (Json.JObj [("ws_url", Json.JStr "lab.example:9001")])
           (Json.JObj [("leader_hostname", Json.JStr "leader");
                       ("leader_address", Json.JStr "10.0.0.1")])
           "lab.example:9001"); try reflexivity.
  discriminate.
Defined.

(** X21.  Without a remote configuration the components do not name
    the leader the same way: the media card connects to
    <leader_hostname>.local, the error notifications and the dosing
    dialog to <leader_address>, all on port 9001. *)
Theorem components_differ_on_local_endpoint :
  forall (config : Json.value) (topology : JsObject.t Json.value)
         (hostname address : string),
    Json.get_property config "remote" = Some Json.JUndefined ->
    Json.get_property config "network.topology" = Some (Json.JObj topology) ->
    JsObject.get "leader_hostname" topology = Some (Json.JStr hostname) ->
    JsObject.get "leader_address" topology = Some (Json.JStr address) ->
    MediaCard_client config = Created (HostPort (hostname ++ ".local") 9001)
    /\ ErrorSnackbar_client config = Created (HostPort address 9001)
    /\ ButtonChangeDosingDialog_client config = Created (HostPort address 9001).
Proof.
  intros config topology hostname address R T H A.
  unfold ErrorSnackbar_client, ButtonChangeDosingDialog_client,
    effect_client, MediaCard_client.
  rewrite R, T. cbn. rewrite H, A. repeat split.
Qed.

Lemma components_differ_on_local_endpoint_witness :
  let config :=
    Json.JObj [("network.topology",
                Json.JObj [("leader_hostname", Json.JStr "leader");
                           ("leader_address", Json.JStr "10.0.0.1")])] in
  MediaCard_client config = Created (HostPort "leader.local" 9001)
  /\ ErrorSnackbar_client config = Created (HostPort "10.0.0.1" 9001)
  /\ ButtonChangeDosingDialog_client config = Created (HostPort "10.0.0.1" 9001).
Proof.
  intros config.
  apply (components_differ_on_local_endpoint config
           [("leader_hostname", Json.JStr "leader");
            ("leader_address", Json.JStr "10.0.0.1")] "leader" "10.0.0.1");
    reflexivity.
Defined.

End EndpointsMore.

(** ** The export form and the export child process *)

Section ExportMore.

Import DownloadData.



(** X22.  Ticking any dataset is enough for the next submission to
    send the export request: exactly one POST to query_datasets. *)
Theorem ticking_a_dataset_enables_the_request :
  forall (name : string) (st : State),
    exists request,
      snd (onSubmit (handleCheckboxChange name true st)) = [request]
      /\ method request = "POST"
      /\ url request = "query_datasets".
Proof.
  intros name st. unfold onSubmit.
  assert (S : some_selected (state (handleCheckboxChange name true st)) = true).
  { unfold some_selected, handleCheckboxChange. cbn [state setState datasetCheckbox].
    apply existsb_exists. exists true. split; [|reflexivity].
    eapply get_In_values. apply get_set_same. }
  rewrite S. cbn [negb]. eexists. repeat split.
Qed.

Lemma isError_after_step st ev :
  isError st = true -> isError (DownloadDataEvents.step st ev) = true.
Proof.
  intros E. destruct ev as [|name checked|v|outcome]; simpl; try exact E.
  - unfold onSubmit. destruct (negb _); [reflexivity|exact E].
  - unfold onSettled. destruct outcome as [|status body]; [reflexivity|].
    destruct (Fetch.json body) as [res|]; [|reflexivity].
    destruct (Json.get_property res "filename"); [exact E|reflexivity].
Qed.

(** X23.  The error flag of the form is never cleared: once an error
    has been shown, no submission, selection change or completed
    download brings the explanatory text back. *)
Theorem error_flag_is_never_cleared :
  forall (events : list DownloadDataEvents.Event) (st : State),
    isError st = true -> isError (DownloadDataEvents.run st events) = true.
Proof.
  unfold DownloadDataEvents.run.
  induction events as [|ev events IH]; simpl; intros st E; [exact E|].
  apply IH, isError_after_step, E.
Qed.

Lemma error_flag_is_never_cleared_witness :
  isError
    (DownloadDataEvents.run (fst (onSubmit initial_state))
       [DownloadDataEvents.CheckboxChanged "logs" true;
        DownloadDataEvents.Submitted;
        DownloadDataEvents.Settled
          (Fetch.Response 200 (Spec.json_text "{'filename':'export.zip'}"))])
  = true.
Proof.
  apply error_flag_is_never_cleared. reflexivity.
Defined.

(** X24.  When the export request settles the spinner always stops.
    A rejected request or a reply whose body, read as UTF-8 text
    without a leading byte order mark, is not JSON shows the server
    error; the status of the reply is never looked at. *)
Theorem settling_stops_the_spinner :
  forall (st : State) (outcome : Fetch.Outcome),
    isRunning (onSettled st outcome) = false
    /\ (if Spec.rejected outcome
        then isError (onSettled st outcome) = true
             /\ errorMsg (onSettled st outcome)
                = "Server error occurred. Check logs."
        else exists status body,
            outcome = Fetch.Response status body
            /\ forall status',
                onSettled st (Fetch.Response status' body)
                = onSettled st outcome).
Proof.
  intros st [|status body].
  - repeat split.
  - unfold Spec.rejected.
    destruct (Fetch.json body) as [res|] eqn:J; split;
      try (unfold onSettled; rewrite J;
           try destruct (Json.get_property res "filename");
           repeat split; fail).
    exists status, body. split; reflexivity.
Qed.





Lemma In_keys_get {V : Type} (k : string) (o : JsObject.t V) :
  In k (JsObject.keys o) -> exists v, JsObject.get k o = Some v.
Proof.
  induction o as [|[k' v'] o IH]; simpl; [contradiction|].
  destruct (String.eqb k k') eqn:E; [eauto|].
  apply String.eqb_neq in E. intros [H|H]; [congruence|auto].
Qed.

(** The child process passes a dataset to the export command
    exactly when the selection holds a truthy value for it. *)
Lemma tables_are_the_truthy_entries :
  forall (datasetCheckbox : JsObject.t Json.value) (t : string),
    In t (ExportChild.tables datasetCheckbox)
    <-> exists v, JsObject.get t datasetCheckbox = Some v
                  /\ JsConvert.truthy v = true.
Proof.
  intros cb t. unfold ExportChild.tables. rewrite filter_In. split.
  - intros [K T]. apply In_keys_get in K. destruct K as [v G].
    rewrite G in T. eauto.
  - intros (v & G & T). split; [eapply get_In_keys; exact G|].
    rewrite G. exact T.
Qed.

Lemma occurrences_app (c : ascii) (a b : string) :
  JsConvert.occurrences c (a ++ b)
  = JsConvert.occurrences c a + JsConvert.occurrences c b.
Proof.
  induction a as [|x a IH]; simpl; [reflexivity|]. rewrite IH. lia.
Qed.

Lemma occurrences_replace (e : string) :
  JsConvert.occurrences " " (JsConvert.replace " " "_" e)
  = pred (JsConvert.occurrences " " e).
Proof.
  induction e as [|x e IH]; simpl; [reflexivity|].
  destruct (Ascii.eqb x " ") eqn:E; simpl; [reflexivity|].
  rewrite E, IH. simpl.
  destruct (JsConvert.occurrences " " e) as [|n] eqn:O; [|reflexivity].
  reflexivity.
Qed.

Lemma digits_without_space (d : Decimal.uint) :
  JsConvert.occurrences " " (NilEmpty.string_of_uint d) = 0.
Proof. induction d; simpl; auto. Qed.

(** X26.  Only the first space of the experiment name is replaced in
    the name of the export file: the file name has one space fewer
    than the experiment name, so it is free of spaces only for names
    with at most one. *)
Theorem filename_keeps_all_but_the_first_space :
  forall (experiment : string) (now : N),
    JsConvert.occurrences " " (ExportChild.filename experiment now)
    = pred (JsConvert.occurrences " " experiment).
Proof.
  intros experiment now. unfold ExportChild.filename, JsNumber.digits_of_N.
  rewrite !occurrences_app, occurrences_replace.
  assert (Z : JsConvert.occurrences " " (NilZero.string_of_uint (N.to_uint (now / 1000))) = 0).
  { unfold NilZero.string_of_uint.
    destruct (N.to_uint (now / 1000)); try reflexivity; apply digits_without_space. }
  rewrite Z. simpl. lia.
Qed.

Lemma cmd_tables_app (a b : list string) :
  ExportChild.cmd_tables (a ++ b)
  = (ExportChild.cmd_tables a ++ ExportChild.cmd_tables b)%list.
Proof. unfold ExportChild.cmd_tables. apply flat_map_app. Qed.

(** X27.  Every dataset for which the selection holds a truthy value
    reaches the export command as the two consecutive arguments
    --tables <name>. *)
Theorem ticked_dataset_is_passed_as_tables_option :
  forall (experiment : string) (datasetCheckbox : JsObject.t Json.value)
         (now : N) (t : string) (v : Json.value),
    JsObject.get t datasetCheckbox = Some v ->
    JsConvert.truthy v = true ->
    exists before after,
      ExportChild.arguments (Json.JStr experiment) datasetCheckbox now
      = Some (before ++ ["--tables"; t] ++ after)%list.
Proof.
  intros experiment cb now t v G T.
  assert (H : In t (ExportChild.tables cb))
    by (apply tables_are_the_truthy_entries; eauto).
  apply in_split in H. destruct H as (l1 & l2 & E).
  unfold ExportChild.arguments. rewrite E.
  exists (["run"; "download_experiment_data"; "--experiment";
           ExportChild.quoted experiment; "--output";
           ExportChild.quoted
             ("/home/pi/pioreactorui/backend/build/static/exports/"
                ++ ExportChild.filename experiment now)]
            ++ ExportChild.cmd_tables l1)%list, (ExportChild.cmd_tables l2).
  f_equal. rewrite cmd_tables_app, <- app_assoc.
  f_equal.
Qed.

Lemma ticked_dataset_is_passed_as_tables_option_witness :
  exists before after,
    ExportChild.arguments (Json.JStr "exp A")
      [("growth_rates", Json.JBool false); ("logs", Json.JBool true)]
      1700000000000
    = Some (before ++ ["--tables"; "logs"] ++ after)%list.
Proof.
  apply (ticked_dataset_is_passed_as_tables_option "exp A"
           [("growth_rates", Json.JBool false); ("logs", Json.JBool true)]
           1700000000000 "logs" (Json.JBool true)); reflexivity.
Defined.

End ExportMore.

(** ** The update dialog *)

Section UpdateDialog.

Import ConfirmDialog.

Lemma snackbar_after_step st ev :
  openSnackbar st = true -> openSnackbar (step st ev) = true.
Proof. intros O. destruct ev; simpl; auto. Qed.

Lemma snackbar_along_run events :
  forall st, openSnackbar st = true -> openSnackbar (run st events) = true.
Proof.
  unfold run. induction events as [|ev events IH]; simpl; intros st O; [exact O|].
  apply IH, snackbar_after_step, O.
Qed.

(** X28.  Once an update has been requested, the notice "Updating in
    the background" stays open whatever the user does with the dialog
    afterwards: no handler of the component ever closes it. *)
Theorem update_notice_stays_open :
  forall (events : list Event) (st : State),
    In UpdateNow events -> openSnackbar (run st events) = true.
Proof.
  unfold run. induction events as [|ev events IH]; simpl; intros st H.
  - contradiction.
  - destruct H as [->|H]; [apply (snackbar_along_run events); reflexivity|].
    apply IH, H.
Qed.

Lemma update_notice_stays_open_witness :
  openSnackbar (run initial_state [ClickOpen; UpdateNow; ClickOpen; Close]) = true.
Proof.
  apply update_notice_stays_open. simpl. auto.
Defined.

End UpdateDialog.

(** ** Encoding to JSON and decoding again *)

Section RoundTrip.

Import Json JsonText.

Lemma assemble_low (u : N) (ps : list piece) :
  (u <? 55296)%N = true ->
  assemble (Unit16 u :: ps) = (utf8 u ++ assemble ps)%list.
Proof.
  intros L. cbn [assemble].
  destruct ps as [|[c|lo] ps]; try reflexivity.
  assert (E : (55296 <=? u)%N = false).
  { apply N.leb_gt. apply N.ltb_lt. exact L. }
  rewrite E. reflexivity.
Qed.

Lemma string_pieces_escape (s : string) :
  forall rest, exists ps,
    string_pieces (escape s ++ String dquote rest) = Some (ps, rest)
    /\ assemble ps = list_ascii_of_string s.
Proof.
  induction s as [|c s IH]; intros rest.
  - exists []. split; reflexivity.
  - destruct (IH rest) as (ps & E & A).
    destruct c as [[] [] [] [] [] [] [] []];
      cbn; rewrite E;
      eexists; (split; [reflexivity|]);
      rewrite ?assemble_low by reflexivity; cbn; rewrite A; reflexivity.
Qed.

Lemma parse_string_quote (s rest : string) :
  parse_string (escape s ++ String dquote rest) = Some (s, rest).
Proof.
  unfold parse_string. destruct (string_pieces_escape s rest) as (ps & E & A).
  rewrite E, A, string_of_list_ascii_of_string. reflexivity.
Qed.

(** More fuel never changes a result. *)
Lemma parse_mono (f : nat) :
  (forall s r, parse_value f s = Some r -> parse_value (S f) s = Some r)
  /\ (forall s acc r, parse_elements f s acc = Some r ->
                      parse_elements (S f) s acc = Some r)
  /\ (forall s acc r, parse_members f s acc = Some r ->
                      parse_members (S f) s acc = Some r).
Proof.
  induction f as [|f (IHv & IHe & IHm)]; [repeat split; discriminate|].
  split; [|split].
  - intros s r H. cbn [parse_value] in *.
    destruct (skip_ws s) as [|c r0]; [discriminate|].
    destruct (Ascii.eqb c "{"%char).
    { destruct (skip_ws r0) as [|c' r']; [discriminate|].
      destruct (Ascii.eqb c' "}"%char); [exact H|]. apply IHm, H. }
    destruct (Ascii.eqb c "["%char); [|exact H].
    destruct (skip_ws r0) as [|c' r']; [discriminate|].
    destruct (Ascii.eqb c' "]"%char); [exact H|]. apply IHe, H.
  - intros s acc r H. cbn [parse_elements] in *.
    destruct (parse_value f s) as [[v r1]|] eqn:E; [|discriminate].
    rewrite (IHv _ _ E).
    destruct (skip_ws r1) as [|c r']; [discriminate|].
    destruct (Ascii.eqb c ","%char); [apply IHe, H|exact H].
  - intros s acc r H. cbn [parse_members] in *.
    destruct (skip_ws s) as [|q r0]; [discriminate|].
    destruct (Ascii.eqb q dquote); [|discriminate].
    destruct (parse_string r0) as [[k r1]|]; [|discriminate].
    destruct (skip_ws r1) as [|c1 r2]; [discriminate|].
    destruct (Ascii.eqb c1 ":"%char); [|discriminate].
    destruct (parse_value f r2) as [[v r3]|] eqn:E; [|discriminate].
    rewrite (IHv _ _ E).
    destruct (skip_ws r3) as [|c3 r4]; [discriminate|].
    destruct (Ascii.eqb c3 ","%char); [apply IHm, H|exact H].
Qed.

Lemma parse_value_more (extra : nat) :
  forall f s r, parse_value f s = Some r -> parse_value (extra + f) s = Some r.
Proof.
  induction extra as [|k IH]; intros f s r H; [exact H|].
  apply (parse_mono (k + f)), IH, H.
Qed.

Lemma parse_members_more (extra : nat) :
  forall f s acc r,
    parse_members f s acc = Some r -> parse_members (extra + f) s acc = Some r.
Proof.
  induction extra as [|k IH]; intros f s acc r H; [exact H|].
  apply (parse_mono (k + f)), IH, H.
Qed.

Lemma string_reads_back (s : string) : reads_back (JStr s).
Proof.
  exists (quote s). split; [reflexivity|]. intros rest. exists 1.
  unfold quote. cbn [append parse_value skip_ws].
  replace (is_json_space dquote) with false by reflexivity.
  replace (Ascii.eqb dquote "{"%char) with false by reflexivity.
  replace (Ascii.eqb dquote "["%char) with false by reflexivity.
  rewrite Ascii.eqb_refl, append_assoc. cbn [append].
  rewrite parse_string_quote. reflexivity.
Qed.

Lemma bool_reads_back (b : bool) : reads_back (JBool b).
Proof.
  eexists. split; [reflexivity|]. intros rest. exists 1. destruct b; reflexivity.
Qed.

Lemma null_reads_back : reads_back JNull.
Proof.
  eexists. split; [reflexivity|]. intros rest. exists 1. reflexivity.
Qed.

Lemma stringify_object (members : list (string * value)) :
  stringify (JObj members)
  = Some ("{" ++ JsString.join "," (member_texts members) ++ "}").
Proof. reflexivity. Qed.

Lemma member_texts_not_nil k x r :
  (forall k' x', In (k', x') ((k, x) :: r) -> reads_back x') ->
  member_texts ((k, x) :: r) <> [].
Proof.
  intros H. destruct (H k x (or_introl eq_refl)) as (t & E & _).
  cbn [member_texts]. rewrite E. discriminate.
Qed.

Lemma members_read_back (o : list (string * value)) :
  o <> [] ->
  (forall k x, In (k, x) o -> reads_back x) ->
  forall acc rest, exists f,
    parse_members f (JsString.join "," (member_texts o) ++ String "}" rest) acc
    = Some (JObj (merge acc o), rest).
Proof.
  induction o as [|[k x] r IH]; intros NE R acc rest; [contradiction|].
  destruct (R k x (or_introl eq_refl)) as (t & E & P).
  cbn [member_texts]. rewrite E.
  destruct r as [|[k2 x2] r2].
  - destruct (P (String "}" rest)) as (fx & Px). exists (S fx).
    cbn [member_texts JsString.join String.concat].
    unfold quote. cbn [append]. rewrite !append_assoc. cbn [append].
    cbn [parse_members skip_ws].
    replace (is_json_space dquote) with false by reflexivity.
    rewrite Ascii.eqb_refl, parse_string_quote. cbn [skip_ws].
    replace (is_json_space ":") with false by reflexivity.
    rewrite Ascii.eqb_refl, Px. cbn [skip_ws].
    replace (is_json_space "}") with false by reflexivity.
    replace (Ascii.eqb "}" ",")%char with false by reflexivity.
    rewrite Ascii.eqb_refl. reflexivity.
  - assert (R' : forall k' x', In (k', x') ((k2, x2) :: r2) -> reads_back x')
      by (intros k' x' H; apply (R k' x'); right; exact H).
    pose proof (member_texts_not_nil k2 x2 r2 R') as NN.
    destruct (IH ltac:(discriminate) R' (JsObject.set k x acc) rest) as (fr & Pr).
    set (tail := JsString.join "," (member_texts ((k2, x2) :: r2))) in *.
    destruct (P (String "," (tail ++ String "}" rest))) as (fx & Px).
    exists (S (fr + fx)).
    assert (J : JsString.join "," ((quote k ++ ":" ++ t) :: member_texts ((k2, x2) :: r2))
                = (quote k ++ ":" ++ t) ++ "," ++ tail).
    { unfold tail, JsString.join. cbn [String.concat].
      destruct (member_texts ((k2, x2) :: r2)); [contradiction|reflexivity]. }
    rewrite J. unfold quote. cbn [append]. rewrite !append_assoc. cbn [append].
    cbn [parse_members skip_ws].
    replace (is_json_space dquote) with false by reflexivity.
    rewrite Ascii.eqb_refl, parse_string_quote. cbn [skip_ws].
    replace (is_json_space ":") with false by reflexivity.
    rewrite Ascii.eqb_refl.
    rewrite (parse_value_more fr _ _ _ Px). cbn [skip_ws].
    replace (is_json_space ",") with false by reflexivity.
    rewrite Ascii.eqb_refl.
    rewrite Nat.add_comm. apply (parse_members_more fx). exact Pr.
Qed.

Lemma merge_fresh (o : JsObject.t value) :
  NoDup (JsObject.keys o) ->
  (forall k, In k (JsObject.keys o) -> JsObject.array_index k = None) ->
  forall acc,
    (forall k, In k (JsObject.keys o) -> JsObject.get k acc = None) ->
    merge acc o = (acc ++ o)%list.
Proof.
  unfold merge.
  induction o as [|[k x] r IH]; intros D I acc F; simpl.
  - rewrite app_nil_r. reflexivity.
  - inversion D as [|? ? Nk Dr]; subst.
    assert (S : JsObject.set k x acc = (acc ++ [(k, x)])%list).
    { unfold JsObject.set. rewrite (F k (or_introl eq_refl)).
      rewrite (I k (or_introl eq_refl)). reflexivity. }
    rewrite S, IH.
    + rewrite <- app_assoc. reflexivity.
    + exact Dr.
    + intros k' H. apply I. right. exact H.
    + intros k' H. rewrite get_app_last, (F k' (or_intror H)).
      destruct (String.eqb k' k) eqn:E; [|reflexivity].
      apply String.eqb_eq in E. subst k'. contradiction.
Qed.

(** An object whose member values read back, and whose keys are
    distinct and none an array index, reads back. *)
Lemma object_reads_back (o : list (string * value)) :
  NoDup (JsObject.keys o) ->
  (forall k, In k (JsObject.keys o) -> JsObject.array_index k = None) ->
  (forall k x, In (k, x) o -> reads_back x) ->
  reads_back (JObj o).
Proof.
  intros D I R. eexists. split; [apply stringify_object|]. intros rest.
  destruct o as [|[k x] r].
  - exists 1. reflexivity.
  - destruct (members_read_back ((k, x) :: r) ltac:(discriminate) R [] rest)
      as (f & P).
    rewrite (merge_fresh _ D I) in P by reflexivity. cbn [app] in P.
    exists (S f). rewrite !append_assoc. cbn [append parse_value skip_ws].
    replace (is_json_space "{") with false by reflexivity.
    rewrite Ascii.eqb_refl.
    pose proof (member_texts_not_nil k x r R) as NN.
    remember (JsString.join "," (member_texts ((k, x) :: r)) ++ String "}" rest)
      as text eqn:T.
    assert (Q : exists tail, text = String dquote tail).
    { subst text. destruct (R k x (or_introl eq_refl)) as (t & E & _).
      cbn [member_texts]. rewrite E. unfold JsString.join. cbn [String.concat].
      destruct (member_texts r); unfold quote; cbn [append]; eauto. }
    destruct Q as (tail & Q). rewrite Q in *. cbn [skip_ws].
    replace (is_json_space dquote) with false by reflexivity.
    replace (Ascii.eqb dquote "}")%char with false by reflexivity.
    exact P.
Qed.

Lemma reads_back_parse (v : value) (text : string) :
  reads_back v -> stringify v = Some text -> parse text = Some v.
Proof.
  intros (t & E & P) S. rewrite S in E. injection E as <-.
  destruct (P EmptyString) as (f & H). rewrite append_nil_r in H.
  unfold parse.
  rewrite <- (parse_fuel_enough text f), Nat.add_comm.
  rewrite (parse_value_more _ _ _ _ H). reflexivity.
Qed.

Lemma scalar_reads_back (v : value) : scalar v = true -> reads_back v.
Proof.
  destruct v; try discriminate; intros _.
  - apply null_reads_back.
  - apply bool_reads_back.
  - apply string_reads_back.
Qed.

(** X29.  The payload of a command decodes back to the settings it
    was built from: for settings made of strings, booleans and null,
    under distinct keys none of which is an array index,
    [JSON.parse] of the published text is the settings object, with
    its members in their order. *)
Theorem command_payload_reads_back :
  forall (props : ButtonChangeDosingDialog.Props)
         (settings : JsObject.t value),
    NoDup (JsObject.keys settings) ->
    (forall k, In k (JsObject.keys settings) -> JsObject.array_index k = None) ->
    forallb (fun kv => scalar (snd kv)) settings = true ->
    Json.parse (Paho.payloadString
                  (ButtonChangeDosingDialog.command props settings))
    = Some (JObj settings).
Proof.
  intros props settings D I S.
  assert (R : reads_back (JObj settings)).
  { apply object_reads_back; [exact D|exact I|].
    intros k x H. apply scalar_reads_back.
    rewrite forallb_forall in S. exact (S (k, x) H). }
  unfold ButtonChangeDosingDialog.command. cbn [Paho.payloadString].
  rewrite stringify_object. apply reads_back_parse; [exact R|].
  apply stringify_object.
Qed.

Lemma command_payload_reads_back_witness :
  Json.parse (Paho.payloadString
                (ButtonChangeDosingDialog.command
                   {| ButtonChangeDosingDialog.unit := "u1";
                      ButtonChangeDosingDialog.experiment := "expA" |}
                   Spec.scenario_settings))
  = Some (JObj Spec.scenario_settings).
Proof.
  apply command_payload_reads_back.
  - repeat (constructor; [simpl; intuition discriminate|]). constructor.
  - intros k [<-|[<-|[]]]; reflexivity.
  - reflexivity.
Defined.

Lemma keys_of_decoded (cb : JsObject.t bool) :
  JsObject.keys (ExportChild.decoded_checkbox cb) = JsObject.keys cb.
Proof.
  unfold JsObject.keys, ExportChild.decoded_checkbox. rewrite map_map.
  reflexivity.
Qed.

(** X30.  The body of the export request decodes back to the
    selection: for an experiment chosen as a string and dataset names
    that are distinct and no array index, [JSON.parse] of the body is
    the object holding the experiment and one boolean per dataset, in
    the order of the form.  This is the object the child process
    works on. *)
Theorem export_body_reads_back :
  forall (st : DownloadData.State) (e : string) (request : DownloadData.Request),
    DownloadData.experimentSelection (DownloadData.state st) = JStr e ->
    NoDup (JsObject.keys (DownloadData.datasetCheckbox (DownloadData.state st))) ->
    (forall k,
        In k (JsObject.keys (DownloadData.datasetCheckbox (DownloadData.state st))) ->
        JsObject.array_index k = None) ->
    In request (snd (DownloadData.onSubmit st)) ->
    Json.parse (DownloadData.body request)
    = Some (JObj [("experimentSelection", JStr e);
                  ("datasetCheckbox",
                   JObj (ExportChild.decoded_checkbox
                           (DownloadData.datasetCheckbox (DownloadData.state st))))]).
Proof.
  intros st e request E D I H.
  unfold DownloadData.onSubmit in H.
  destruct (negb _); [contradiction|]. destruct H as [<-|[]].
  cbn [DownloadData.body]. unfold DownloadData.stringify_state. rewrite E.
  change (map (fun kb : string * bool => (fst kb, JBool (snd kb)))
              (DownloadData.datasetCheckbox (DownloadData.state st)))
    with (ExportChild.decoded_checkbox
            (DownloadData.datasetCheckbox (DownloadData.state st))).
  set (inner := ExportChild.decoded_checkbox _).
  assert (Ri : reads_back (JObj inner)).
  { apply object_reads_back.
    - unfold inner. rewrite keys_of_decoded. exact D.
    - unfold inner. rewrite keys_of_decoded. exact I.
    - intros k x Hx. apply scalar_reads_back. unfold inner in Hx.
      apply in_map_iff in Hx. destruct Hx as ([k' b] & Eq & _).
      injection Eq as _ <-. reflexivity. }
  assert (R : reads_back (JObj [("experimentSelection", JStr e);
                                ("datasetCheckbox", JObj inner)])).
  { apply object_reads_back.
    - repeat (constructor; [simpl; intuition discriminate|]). constructor.
    - intros k [<-|[<-|[]]]; reflexivity.
    - intros k x [Eq|[Eq|[]]]; injection Eq as _ <-;
        [apply string_reads_back|exact Ri]. }
  destruct R as (text & T & P). rewrite T.
  apply reads_back_parse; [exists text; split; assumption|exact T].
Qed.

Lemma export_body_reads_back_witness :
  let st := DownloadData.handleExperimentSelectionChange (JStr "exp A")
              (DownloadData.handleCheckboxChange "logs" true
                 DownloadData.initial_state) in
  match snd (DownloadData.onSubmit st) with
  | [request] =>
      Json.parse (DownloadData.body request)
      = Some (JObj [("experimentSelection", JStr "exp A");
                    ("datasetCheckbox",
                     JObj (ExportChild.decoded_checkbox
                             (DownloadData.datasetCheckbox
                                (DownloadData.state st))))])
  | _ => False
  end.
Proof.
  intros st.
  change (snd (DownloadData.onSubmit st))
    with [ {| DownloadData.url := "query_datasets";
              DownloadData.method := "POST";
              DownloadData.body := DownloadData.stringify_state (DownloadData.state st);
              DownloadData.headers := [("Accept", "application/json");
                                       ("Content-Type", "application/json")] |} ].
  apply (export_body_reads_back st "exp A").
  - reflexivity.
  - simpl. repeat (constructor; [simpl; intuition discriminate|]). constructor.
  - simpl. intros k [<-|[<-|[<-|[<-|[<-|[<-|[]]]]]]]; reflexivity.
  - left. reflexivity.
Defined.

End RoundTrip.
